(** * Authentication glue of the invoice backend: token issue and current-user resolution

    Shallow embedding of [src/app/crud/user_crud.py]:
    [get_user_shop_data], [create_access_token] and [get_current_user],
    together with the parts of their environment they rely on (the
    settings object, the ORM session, the wall clock and the JWT
    library). *)

From Stdlib Require Import ZArith Lia Ascii.
From stdpp Require Import base option list gmap strings fin_maps.

Local Open Scope string_scope.
Local Open Scope Z_scope.

(** ** Python values

    The values that travel through the dictionaries of this module: the
    JSON scalars a token payload carries, and [datetime] for the expiry the
    issuer hands to the JWT library.  JSON fractions, arrays and objects are
    left out. *)

Inductive value : Type :=
  | VNone
  | VBool (b : bool)
  | VInt (n : Z)
  | VStr (s : string)
  | VDatetime (us : Z).

#[global] Instance value_eq_dec : EqDecision value.
Proof. solve_decision. Defined.

(** A [Dict[str, Any]]. *)
Abbreviation dict := (gmap string value).

(** [d.get(k)]: the value under [k], [None] when the key is missing. *)
Definition dict_get (d : dict) (k : string) : value :=
  default VNone (d !! k).

(** [d.get(k, dflt)]. *)
Definition dict_get_default (d : dict) (k : string) (dflt : value) : value :=
  default dflt (d !! k).

(** [d.update(other)]: the keys of [other] win. *)
Definition dict_update (d other : dict) : dict := other ∪ d.

(** Truth value of a dictionary: an empty one is false. *)
Definition dict_truthy (d : dict) : bool := bool_decide (d ≠ ∅).

(** [v is None]. *)
Definition is_None (v : value) : bool :=
  match v with VNone => true | _ => false end.

(** ** Exceptions and results *)

Module HTTPException.
Record t : Type := mk {
  status_code : Z;
  detail : string;
  headers : option (gmap string string)
}.
End HTTPException.

Definition HTTP_400_BAD_REQUEST : Z := 400.
Definition HTTP_401_UNAUTHORIZED : Z := 401.

Inductive exn : Type :=
  | JWTError
  | TypeError
  | ValueError
  | OverflowError
  | MultipleResultsFound
  | HTTPError (e : HTTPException.t).

Inductive res (A : Type) : Type :=
  | Ret (a : A)
  | Raise (e : exn).
Arguments Ret {A} a.
Arguments Raise {A} e.

#[global] Instance res_ret : MRet res := λ A a, Ret a.

#[global] Instance res_bind : MBind res := λ A B k m,
  match m with
  | Ret a => k a
  | Raise e => Raise e
  end.

(** [try: body  except JWTError: handler]: only [JWTError] is caught, every
    other exception leaves the block unchanged. *)
Definition try_except_JWTError {A : Type} (body : res A) (handler : res A) : res A :=
  match body with
  | Raise JWTError => handler
  | r => r
  end.

(** ** Settings *)

(** The JWT settings, and the database that [DB_HOST], [DB_PORT] and
    [DB_NAME] point to.  Of that database the model keeps one thing, which
    the source leaves to it: how it compares a bound value that is not an
    integer with the integer key [User.id].  [DB_integer v] is the integer
    the database takes [v] for, if it takes it for one. *)
Record Settings : Type := {
  SECRET_KEY : string;
  ALGORITHM : string;
  ACCESS_TOKEN_EXPIRE_MINUTES : Z;
  DB_integer : value → option Z
}.

(** ** Time

    A naive [datetime] is the number of microseconds its fields spell out
    since 1970-01-01 00:00:00; a [timedelta] is a number of microseconds.
    The clock gives the instant in UTC and the offset of the server's local
    zone: [datetime.now()] reads local wall-clock time. *)

Record Clock : Type := {
  utc_instant : Z;
  utcoffset : Z
}.

Definition datetime_now (c : Clock) : Z := utc_instant c + utcoffset c.
Definition datetime_utcnow (c : Clock) : Z := utc_instant c.

Definition timedelta_minutes (m : Z) : Z := m * 60000000.

(** The ranges of the two types: [datetime.min] is 0001-01-01 00:00:00 and
    [datetime.max] is 9999-12-31 23:59:59.999999; a [timedelta] has at most
    999999999 days either way. *)
Definition datetime_min : Z := -62135596800000000.
Definition datetime_max : Z := 253402300799999999.
Definition timedelta_min : Z := -999999999 * 86400000000.
Definition timedelta_max : Z := 999999999 * 86400000000 + 86399999999.

(** [timedelta(minutes=m)]: [OverflowError] outside the range. *)
Definition timedelta_of_minutes (m : Z) : res Z :=
  if bool_decide (timedelta_min ≤ timedelta_minutes m ≤ timedelta_max)
  then Ret (timedelta_minutes m)
  else Raise OverflowError.

(** [d + delta] on a [datetime]: [OverflowError] when the result leaves the
    range. *)
Definition datetime_add (d delta : Z) : res Z :=
  if bool_decide (datetime_min ≤ d + delta ≤ datetime_max)
  then Ret (d + delta)
  else Raise OverflowError.

(** [timegm(d.utctimetuple())]: whole seconds of a naive datetime, read as
    if it were UTC. *)
Definition timegm (d : Z) : Z := d `div` 1000000.

(** ** Stored entities *)

Module Shop.
Record t : Type := mk { id : Z }.
End Shop.

Module Invoice.
Record t : Type := mk {
  id : Z;
  user_id : Z;
  shop_id : Z;
  created_at : Z
}.
End Invoice.

(** A row of the users table, keyed by its primary key in the session. *)
Module UserRow.
Record t : Type := mk {
  login : string;
  is_active : bool;
  is_superuser : bool;
  shops : list Shop.t
}.
End UserRow.

(** The in-memory [User] object: the loaded row, and the two request-scoped
    attributes that [get_current_user] sets on it ([None] while unset). *)
Module User.
Record t : Type := mk {
  id : Z;
  login : string;
  is_active : bool;
  is_superuser : bool;
  shops : list Shop.t;
  current_shop_id : option value;
  last_invoice_id : option value
}.

Definition load (pk : Z) (r : UserRow.t) : t :=
  {| id := pk;
     login := UserRow.login r;
     is_active := UserRow.is_active r;
     is_superuser := UserRow.is_superuser r;
     shops := UserRow.shops r;
     current_shop_id := None;
     last_invoice_id := None |}.

Definition set_current_shop_id (u : t) (v : value) : t :=
  {| id := id u; login := login u; is_active := is_active u;
     is_superuser := is_superuser u; shops := shops u;
     current_shop_id := Some v;
     last_invoice_id := last_invoice_id u |}.

Definition set_last_invoice_id (u : t) (v : value) : t :=
  {| id := id u; login := login u; is_active := is_active u;
     is_superuser := is_superuser u; shops := shops u;
     current_shop_id := current_shop_id u;
     last_invoice_id := Some v |}.
End User.

(** The database behind an [AsyncSession]. *)
Record Session : Type := {
  users : gmap Z UserRow.t;
  invoices : list Invoice.t
}.

(** ** Queries *)

(** [result.scalar_one_or_none()]. *)
Definition scalar_one_or_none {A : Type} (rows : list A) : res (option A) :=
  match rows with
  | [] => Ret None
  | [r] => Ret (Some r)
  | _ => Raise MultipleResultsFound
  end.

(** [select(User).where(User.id == pk)] for an integer [pk]: the rows whose
    primary key is [pk]. *)
Definition select_user_by_id (s : Session) (pk : Z) : list User.t :=
  match users s !! pk with
  | Some r => [User.load pk r]
  | None => []
  end.

(** The primary key that [User.id == v] selects by when [v] is whatever a
    payload held: an integer is itself, [None] equals no key, and any other
    value is the integer the database takes it for. *)
Definition bound_pk (settings : Settings) (v : value) : option Z :=
  match v with
  | VInt pk => Some pk
  | VNone => None
  | _ => DB_integer settings v
  end.

(** [select(User).where(User.id == v)]. *)
Definition select_user_where_id (settings : Settings) (s : Session) (v : value)
    : list User.t :=
  match bound_pk settings v with
  | Some pk => select_user_by_id s pk
  | None => []
  end.

Definition invoice_matches (uid sid : Z) (i : Invoice.t) : Prop :=
  Invoice.user_id i = uid ∧ Invoice.shop_id i = sid.

#[global] Instance invoice_matches_dec uid sid i : Decision (invoice_matches uid sid i).
Proof. unfold invoice_matches. apply _. Defined.

(** [ORDER BY created_at DESC], as a stable insertion sort. *)
Fixpoint insert_desc (i : Invoice.t) (l : list Invoice.t) : list Invoice.t :=
  match l with
  | [] => [i]
  | j :: l' =>
      if bool_decide (Invoice.created_at j ≤ Invoice.created_at i)
      then i :: j :: l'
      else j :: insert_desc i l'
  end.

Definition order_by_created_at_desc (l : list Invoice.t) : list Invoice.t :=
  foldr insert_desc [] l.

(** [select(Invoice).where(Invoice.user_id == uid, Invoice.shop_id == sid)
      .order_by(Invoice.created_at.desc()).limit(1)]. *)
Definition select_last_invoice (s : Session) (uid sid : Z) : list Invoice.t :=
  take 1 (order_by_created_at_desc (filter (invoice_matches uid sid) (invoices s))).

(** ** [get_user_shop_data] *)

Definition null_shop_data : dict :=
  {[ "user_shop_id" := VNone; "last_invoice_id" := VNone ]}.

Definition get_user_shop_data (session : Session) (user : User.t) : res dict :=
  user_with_shops ← scalar_one_or_none (select_user_by_id session (User.id user)) ;
  match user_with_shops with
  | None => Ret null_shop_data
  | Some user_with_shops =>
      match User.shops user_with_shops with
      | [] => Ret null_shop_data
      | user_shop :: _ =>
          last_invoice ← scalar_one_or_none
            (select_last_invoice session (User.id user) (Shop.id user_shop)) ;
          Ret {[ "user_shop_id" := VInt (Shop.id user_shop);
                 "last_invoice_id" :=
                   match last_invoice with
                   | Some inv => VInt (Invoice.id inv)
                   | None => VNone
                   end ]}
      end
  end.

(** ** The JWT library, symbolically

    A bearer token is a string.  The signing library is modelled on terms:
    [JWS alg key claims] is the compact serialisation of the claim set
    [claims], with header algorithm [alg] and a signature made with [key];
    [Opaque s] is any string that does not parse as one.  Keys are compared
    as strings and signatures of different keys never coincide: that two
    different secrets can be one and the same MAC key is below this model.
    The configured algorithm is taken to be one the library supports with
    the configured key.  Only a claim set that JSON can express
    has a serialisation: a term with a [datetime] left among its claims
    stands for no string, and the decoder refuses it like any other
    malformed input.  Of the registered claims, the library's checks of
    [exp] and [sub] are modelled: they are the ones this application
    issues; its checks of [nbf], [iat], [aud], [jti] and [at_hash] are not.
    The library converts a [datetime] under a time claim with
    [timegm(d.utctimetuple())], which reads a naive datetime as UTC, and
    checks [exp] against [datetime.utcnow()], both in whole seconds. *)

Inductive token : Type :=
  | Opaque (s : string)
  | JWS (alg : string) (key : string) (claims : dict).

Definition is_json (v : value) : bool :=
  match v with VDatetime _ => false | _ => true end.

(** [json.dumps] accepts the claim set. *)
Definition json_serializable (claims : dict) : Prop :=
  map_Forall (λ _ v, is_json v = true) claims.

#[global] Instance json_serializable_dec claims : Decision (json_serializable claims).
Proof. unfold json_serializable. apply _. Defined.

(** [if isinstance(claims.get(time_claim), datetime):
       claims[time_claim] = timegm(claims[time_claim].utctimetuple())] *)
Definition to_numeric_date (claims : dict) (time_claim : string) : dict :=
  match dict_get claims time_claim with
  | VDatetime d => <[time_claim := VInt (timegm d)]> claims
  | _ => claims
  end.

Definition numeric_dates (claims : dict) : dict :=
  foldl to_numeric_date claims ["exp"; "iat"; "nbf"].

(** [jwt.encode(claims, key, algorithm)]. *)
Definition jwt_encode (claims : dict) (key : string) (algorithm : string) : res token :=
  let claims := numeric_dates claims in
  if decide (json_serializable claims)
  then Ret (JWS algorithm key claims)
  else Raise TypeError.

(** [int(s)] for a string: surrounding white space is dropped, then come an
    optional sign and decimal digits, with single underscores allowed
    between digits.  Strings are read as ASCII. *)
Definition py_isspace (a : ascii) : bool :=
  let n := N_of_ascii a in
  ((9 <=? n) && (n <=? 13) || (28 <=? n) && (n <=? 32))%N.

Definition py_isdigit (a : ascii) : bool :=
  let n := N_of_ascii a in ((48 <=? n) && (n <=? 57))%N.

Fixpoint py_lstrip (s : list ascii) : list ascii :=
  match s with
  | a :: s' => if py_isspace a then py_lstrip s' else s
  | [] => []
  end.

Fixpoint py_digits (acc : Z) (after_digit : bool) (s : list ascii) : option Z :=
  match s with
  | [] => if after_digit then Some acc else None
  | a :: s' =>
      if py_isdigit a
      then py_digits (10 * acc + (Z.of_N (N_of_ascii a) - 48)) true s'
      else if bool_decide (a = "_"%char) && after_digit
      then py_digits acc false s'
      else None
  end.

Definition py_int_of_string (s : string) : option Z :=
  match reverse (py_lstrip (reverse (py_lstrip (String.list_ascii_of_string s)))) with
  | a :: digits =>
      if bool_decide (a = "-"%char) then Z.opp <$> py_digits 0 false digits
      else if bool_decide (a = "+"%char) then py_digits 0 false digits
      else py_digits 0 false (a :: digits)
  | [] => None
  end.

(** [int(v)]. *)
Definition py_int (v : value) : res Z :=
  match v with
  | VInt n => Ret n
  | VBool b => Ret (Z.b2z b)
  | VStr s =>
      match py_int_of_string s with
      | Some n => Ret n
      | None => Raise ValueError
      end
  | VNone | VDatetime _ => Raise TypeError
  end.

(** The [exp] check: [int(claims["exp"])], where a [ValueError] becomes a
    [JWTError] and any other exception is let through; the token is expired
    once that integer is below the current UTC time in whole seconds. *)
Definition validate_exp (claims : dict) (now : Z) : res unit :=
  match claims !! "exp" with
  | None => Ret ()
  | Some v =>
      match py_int v with
      | Ret exp => if bool_decide (exp < now) then Raise JWTError else Ret ()
      | Raise ValueError => Raise JWTError
      | Raise e => Raise e
      end
  end.

(** The [sub] check: when present, the subject must be a string. *)
Definition validate_sub (claims : dict) : res unit :=
  match claims !! "sub" with
  | None | Some (VStr _) => Ret ()
  | Some _ => Raise JWTError
  end.

(** [jwt.decode(token, key, algorithms=algorithms)], at clock reading [c]. *)
Definition jwt_decode (t : token) (key : string) (algorithms : list string)
    (c : Clock) : res dict :=
  match t with
  | Opaque _ => Raise JWTError
  | JWS alg k claims =>
      if decide (json_serializable claims ∧ alg ∈ algorithms ∧ k = key) then
        _ ← validate_exp claims (timegm (datetime_utcnow c));
        _ ← validate_sub claims;
        Ret claims
      else Raise JWTError
  end.

(** ** [create_access_token] *)

(** Truth value of an optional dictionary and of an optional duration:
    [None], the empty dictionary and the zero duration are false. *)
Definition optional_dict_truthy (d : option dict) : bool :=
  match d with
  | Some d => dict_truthy d
  | None => false
  end.

Definition optional_timedelta_truthy (d : option Z) : bool :=
  match d with
  | Some d => bool_decide (d ≠ 0)
  | None => false
  end.

(** [expire], lines 111 to 114: the local clock reading plus the explicit
    duration when that is given and not zero, plus the configured minutes
    otherwise; [OverflowError] when the duration or the sum leaves its
    range. *)
Definition expire (settings : Settings) (c : Clock) (expires_delta : option Z) : res Z :=
  if optional_timedelta_truthy expires_delta
  then datetime_add (datetime_now c) (default 0 expires_delta)
  else
    delta ← timedelta_of_minutes (ACCESS_TOKEN_EXPIRE_MINUTES settings);
    datetime_add (datetime_now c) delta.

(** The dictionary [to_encode] as it stands when it is handed to
    [jwt.encode], which is when [expire] has been computed. *)
Definition to_encode (settings : Settings) (c : Clock) (user : User.t)
    (user_shop_data : option dict) (expires_delta : option Z) : dict :=
  let to_encode : dict :=
    {[ "user_id" := VInt (User.id user);
       "is_superuser" := VBool (User.is_superuser user);
       "sub" := VStr (User.login user) ]} in
  let to_encode :=
    if optional_dict_truthy user_shop_data then
      let user_shop_data := default ∅ user_shop_data in
      dict_update to_encode
        {[ "user_shop_id" := dict_get user_shop_data "user_shop_id";
           "last_invoice_id" := dict_get user_shop_data "last_invoice_id" ]}
    else to_encode in
  let expire :=
    if optional_timedelta_truthy expires_delta
    then datetime_now c + default 0 expires_delta
    else datetime_now c + timedelta_minutes (ACCESS_TOKEN_EXPIRE_MINUTES settings) in
  dict_update to_encode {[ "exp" := VDatetime expire ]}.

Definition create_access_token (settings : Settings) (c : Clock) (user : User.t)
    (user_shop_data : option dict) (expires_delta : option Z) : res token :=
  _ ← expire settings c expires_delta;
  jwt_encode (to_encode settings c user user_shop_data expires_delta)
    (SECRET_KEY settings) (ALGORITHM settings).

(** ** [get_current_user] *)

(** The [TokenData] schema is declared outside this module; it is used here
    as a plain record of the four decoded claims. *)
Module TokenData.
Record t : Type := mk {
  user_id : value;
  is_superuser : value;
  user_shop_id : value;
  last_invoice_id : value
}.

Definition new (user_id is_superuser : value) : t :=
  {| user_id := user_id; is_superuser := is_superuser;
     user_shop_id := VNone; last_invoice_id := VNone |}.

Definition set_user_shop_id (d : t) (v : value) : t :=
  {| user_id := user_id d; is_superuser := is_superuser d;
     user_shop_id := v; last_invoice_id := last_invoice_id d |}.

Definition set_last_invoice_id (d : t) (v : value) : t :=
  {| user_id := user_id d; is_superuser := is_superuser d;
     user_shop_id := user_shop_id d; last_invoice_id := v |}.
End TokenData.

Definition credentials_exception : HTTPException.t :=
  {| HTTPException.status_code := HTTP_401_UNAUTHORIZED;
     HTTPException.detail := "Could not validate credentials";
     HTTPException.headers := Some {[ "WWW-Authenticate" := "Bearer" ]} |}.

Definition inactive_user_exception : HTTPException.t :=
  {| HTTPException.status_code := HTTP_400_BAD_REQUEST;
     HTTPException.detail := "Inactive user";
     HTTPException.headers := None |}.

(** The [try] block: decode the token and fill in [token_data]. *)
Definition decode_token_data (settings : Settings) (c : Clock) (t : token)
    : res TokenData.t :=
  try_except_JWTError
    (payload ← jwt_decode t (SECRET_KEY settings) [ALGORITHM settings] c;
     let user_id := dict_get payload "user_id" in
     let user_shop_id := dict_get payload "user_shop_id" in
     let last_invoice_id := dict_get payload "last_invoice_id" in
     let is_superuser := dict_get_default payload "is_superuser" (VBool false) in
     if is_None user_id then Raise (HTTPError credentials_exception)
     else
       let token_data := TokenData.new user_id is_superuser in
       let token_data := TokenData.set_user_shop_id token_data user_shop_id in
       let token_data := TokenData.set_last_invoice_id token_data last_invoice_id in
       Ret token_data)
    (Raise (HTTPError credentials_exception)).

Definition get_current_user (settings : Settings) (c : Clock) (t : token)
    (session : Session) : res User.t :=
  token_data ← decode_token_data settings c t;
  user ← scalar_one_or_none
    (select_user_where_id settings session (TokenData.user_id token_data));
  match user with
  | None => Raise (HTTPError credentials_exception)
  | Some user =>
      if negb (User.is_active user) then Raise (HTTPError inactive_user_exception)
      else
        let user := User.set_current_shop_id user (TokenData.user_shop_id token_data) in
        let user := User.set_last_invoice_id user (TokenData.last_invoice_id token_data) in
        Ret user
  end.

(** ** A small world to run the code on *)

(** A database that takes [True] for 1, [False] for 0 and a string that
    spells an integer for that integer. *)
Definition demo_integer (v : value) : option Z :=
  match v with
  | VBool b => Some (Z.b2z b)
  | VStr s => py_int_of_string s
  | _ => None
  end.

Definition demo_settings : Settings :=
  {| SECRET_KEY := "s3cret"; ALGORITHM := "HS256"; ACCESS_TOKEN_EXPIRE_MINUTES := 30;
     DB_integer := demo_integer |}.

Definition alice_row : UserRow.t :=
  UserRow.mk "alice" true false [Shop.mk 10; Shop.mk 11].
Definition bob_row : UserRow.t := UserRow.mk "bob" false false [].
Definition carol_row : UserRow.t := UserRow.mk "carol" true true [].

Definition demo_session : Session :=
  {| users := {[ 1 := alice_row; 2 := bob_row; 3 := carol_row ]};
     invoices := [ Invoice.mk 100 1 10 5000; Invoice.mk 101 1 10 7000;
                   Invoice.mk 102 1 10 6000; Invoice.mk 103 1 11 9000;
                   Invoice.mk 104 3 10 9500 ] |}.

Definition alice : User.t := User.load 1 alice_row.
Definition bob : User.t := User.load 2 bob_row.
Definition carol : User.t := User.load 3 carol_row.

(** A server whose local zone is UTC, so many seconds after the epoch. *)
Definition utc_clock (seconds : Z) : Clock :=
  {| utc_instant := seconds * 1000000; utcoffset := 0 |}.

(** A server whose local zone is five hours behind UTC. *)
Definition new_york_clock (seconds : Z) : Clock :=
  {| utc_instant := seconds * 1000000; utcoffset := -18000 * 1000000 |}.

(** A token for alice, with shop 10 and invoice 101 as context, that
    expires at 2800 s. *)
Definition alice_claims (is_superuser : bool) : dict :=
  {[ "user_id" := VInt 1; "is_superuser" := VBool is_superuser;
     "sub" := VStr "alice"; "user_shop_id" := VInt 10;
     "last_invoice_id" := VInt 101; "exp" := VInt 2800 ]}.

Definition alice_token (is_superuser : bool) : token :=
  JWS "HS256" "s3cret" (alice_claims is_superuser).

Definition alice_resolved : User.t :=
  User.set_last_invoice_id (User.set_current_shop_id alice (VInt 10)) (VInt 101).

(** ** Vocabulary of the statements *)

(** The last invoice of a (user, shop) pair, as the claim describes it:
    [VNone] when the pair has no invoice, else the id of one of its invoices
    that no other invoice of the pair is newer than. *)
Definition is_last_invoice_id (s : Session) (uid sid : Z) (v : value) : Prop :=
  (v = VNone ∧ ∀ j, j ∈ invoices s → ¬ invoice_matches uid sid j)
  ∨ (∃ inv, v = VInt (Invoice.id inv)
       ∧ inv ∈ invoices s ∧ invoice_matches uid sid inv
       ∧ ∀ j, j ∈ invoices s → invoice_matches uid sid j →
              Invoice.created_at j ≤ Invoice.created_at inv).

(** The expiry the issuer computes: the explicit duration when there is one
    and it is not zero, the configured number of minutes otherwise. *)
Definition issued_expiry (settings : Settings) (c : Clock) (expires_delta : option Z) : Z :=
  match expires_delta with
  | Some d =>
      if decide (d = 0)
      then datetime_now c + timedelta_minutes (ACCESS_TOKEN_EXPIRE_MINUTES settings)
      else datetime_now c + d
  | None => datetime_now c + timedelta_minutes (ACCESS_TOKEN_EXPIRE_MINUTES settings)
  end.

(** What [jwt.encode] makes of one claim value when it sits under a time
    claim. *)
Definition numeric_date (v : value) : value :=
  match v with
  | VDatetime d => VInt (timegm d)
  | _ => v
  end.

(** The values the issuer reads from the context record can be written as
    JSON. *)
Definition context_serializable (user_shop_data : option dict) : Prop :=
  ∀ d, user_shop_data = Some d →
    is_json (dict_get d "user_shop_id") = true
    ∧ is_json (dict_get d "last_invoice_id") = true.

(** ** Further vocabulary *)

#[global] Instance Invoice_eq_dec : EqDecision Invoice.t.
Proof. solve_decision. Defined.

(** The value the issuer stores under a context key: what the context
    record holds there when the record counts as given, nothing otherwise. *)
Definition issued_context (user_shop_data : option dict) (k : string) : option value :=
  if optional_dict_truthy user_shop_data
  then Some (dict_get (default ∅ user_shop_data) k)
  else None.

(** The user [get_current_user] hands out for a stored row and a payload. *)
Definition resolved_user (pk : Z) (row : UserRow.t) (shop invoice : value) : User.t :=
  User.set_last_invoice_id (User.set_current_shop_id (User.load pk row) shop) invoice.

(** A session in which alice's row has been removed, and a context record
    that tries to smuggle identity claims into the token. *)
Definition session_without_alice : Session :=
  {| users := {[ 2 := bob_row; 3 := carol_row ]}; invoices := invoices demo_session |}.

Definition forged_context : dict :=
  {[ "user_shop_id" := VInt 10; "last_invoice_id" := VInt 101;
     "user_id" := VInt 3; "is_superuser" := VBool true; "exp" := VInt 999999 ]}.

(** * Properties *)

(** ** The code at work *)

Example get_user_shop_data_alice :
  get_user_shop_data demo_session alice
  = Ret {[ "user_shop_id" := VInt 10; "last_invoice_id" := VInt 101 ]}.
Proof. by vm_compute. Qed.

Example get_user_shop_data_bob :
  get_user_shop_data demo_session bob = Ret null_shop_data.
Proof. by vm_compute. Qed.

Example get_user_shop_data_carol :
  get_user_shop_data demo_session carol = Ret null_shop_data.
Proof. by vm_compute. Qed.

Example create_access_token_alice :
  create_access_token demo_settings (utc_clock 1000) alice
    (Some {[ "user_shop_id" := VInt 10; "last_invoice_id" := VInt 101 ]}) None
  = Ret (alice_token false).
Proof. by vm_compute. Qed.

Example get_current_user_alice :
  get_current_user demo_settings (utc_clock 1001) (alice_token false) demo_session
  = Ret alice_resolved.
Proof. by vm_compute. Qed.

Example get_current_user_garbage :
  get_current_user demo_settings (utc_clock 1001) (Opaque "not.a.token") demo_session
  = Raise (HTTPError credentials_exception).
Proof. by vm_compute. Qed.

Example get_current_user_no_user_id :
  get_current_user demo_settings (utc_clock 1001)
    (JWS "HS256" "s3cret" {[ "sub" := VStr "alice"; "exp" := VInt 2800 ]}) demo_session
  = Raise (HTTPError credentials_exception).
Proof. by vm_compute. Qed.

Example get_current_user_unknown :
  get_current_user demo_settings (utc_clock 1001)
    (JWS "HS256" "s3cret" {[ "user_id" := VInt 99; "exp" := VInt 2800 ]}) demo_session
  = Raise (HTTPError credentials_exception).
Proof. by vm_compute. Qed.

Example get_current_user_bob :
  get_current_user demo_settings (utc_clock 1001)
    (JWS "HS256" "s3cret" {[ "user_id" := VInt 2; "exp" := VInt 2800 ]}) demo_session
  = Raise (HTTPError inactive_user_exception).
Proof. by vm_compute. Qed.

Example py_int_of_string_examples :
  py_int_of_string "2800" = Some 2800
  ∧ py_int_of_string " -28_00 " = Some (-2800)
  ∧ py_int_of_string "+007" = Some 7
  ∧ py_int_of_string "2800.9" = None
  ∧ py_int_of_string "28__00" = None
  ∧ py_int_of_string "_2800" = None
  ∧ py_int_of_string "- 1" = None
  ∧ py_int_of_string "" = None.
Proof. by vm_compute. Qed.

Example get_current_user_exp_string :
  get_current_user demo_settings (utc_clock 1001)
    (JWS "HS256" "s3cret" {[ "user_id" := VInt 1; "exp" := VStr "2800" ]}) demo_session
  = Ret (User.set_last_invoice_id (User.set_current_shop_id alice VNone) VNone).
Proof. by vm_compute. Qed.

Example get_current_user_exp_null :
  get_current_user demo_settings (utc_clock 1001)
    (JWS "HS256" "s3cret" {[ "user_id" := VInt 1; "exp" := VNone ]}) demo_session
  = Raise TypeError.
Proof. by vm_compute. Qed.

Example get_current_user_user_id_true :
  get_current_user demo_settings (utc_clock 1001)
    (JWS "HS256" "s3cret" {[ "user_id" := VBool true; "exp" := VInt 2800 ]}) demo_session
  = Ret (User.set_last_invoice_id (User.set_current_shop_id alice VNone) VNone).
Proof. by vm_compute. Qed.

Example get_current_user_user_id_text :
  get_current_user demo_settings (utc_clock 1001)
    (JWS "HS256" "s3cret" {[ "user_id" := VStr "x"; "exp" := VInt 2800 ]}) demo_session
  = Raise (HTTPError credentials_exception).
Proof. by vm_compute. Qed.

Example create_access_token_overflow :
  create_access_token demo_settings (utc_clock 1000) alice None
    (Some (999999999 * 86400000000))
  = Raise OverflowError.
Proof. by vm_compute. Qed.

Example get_current_user_other_algorithm :
  get_current_user demo_settings (utc_clock 1001)
    (JWS "none" "s3cret" {[ "user_id" := VInt 1; "exp" := VInt 2800 ]}) demo_session
  = Raise (HTTPError credentials_exception).
Proof. by vm_compute. Qed.

(** ** Results and queries *)

Lemma scalar_one_or_none_take_1 {A : Type} (rows : list A) :
  scalar_one_or_none (take 1 rows) = Ret (head rows).
Proof. by destruct rows as [|r rows]. Qed.

Lemma select_user_by_id_scalar (s : Session) (pk : Z) :
  scalar_one_or_none (select_user_by_id s pk)
  = Ret (User.load pk <$> users s !! pk).
Proof. unfold select_user_by_id. by destruct (users s !! pk). Qed.

Lemma select_user_where_id_scalar (settings : Settings) (s : Session) (v : value) :
  scalar_one_or_none (select_user_where_id settings s v)
  = Ret (pk ← bound_pk settings v; User.load pk <$> users s !! pk).
Proof.
  unfold select_user_where_id.
  destruct (bound_pk settings v) as [pk|]; simpl; [|done].
  apply select_user_by_id_scalar.
Qed.

(** ** [ORDER BY created_at DESC LIMIT 1] picks a newest row *)

Section OrderBy.
Implicit Types (i j m : Invoice.t) (l : list Invoice.t).

Lemma insert_desc_not_nil i l : insert_desc i l ≠ [].
Proof. destruct l as [|j l]; simpl; [done|]. by case_bool_decide. Qed.

Lemma order_by_created_at_desc_nil l : order_by_created_at_desc l = [] → l = [].
Proof.
  destruct l as [|i l]; [done|]. simpl. intros H.
  by apply insert_desc_not_nil in H.
Qed.

Lemma head_insert_desc i l m :
  head (insert_desc i l) = Some m →
  (m = i ∧ ∀ h, head l = Some h → Invoice.created_at h ≤ Invoice.created_at i)
  ∨ (head l = Some m ∧ Invoice.created_at i < Invoice.created_at m).
Proof.
  destruct l as [|j l]; simpl.
  - intros [= <-]. left. split; [done|]. intros h [=].
  - case_bool_decide as Hle; simpl; intros [= <-].
    + left. split; [done|]. by intros h [= <-].
    + right. split; [done|]. lia.
Qed.

Lemma head_order_by_created_at_desc l m :
  head (order_by_created_at_desc l) = Some m →
  m ∈ l ∧ ∀ j, j ∈ l → Invoice.created_at j ≤ Invoice.created_at m.
Proof.
  revert m. induction l as [|i l IH]; intros m; simpl; [done|].
  intros [[-> Hhd] | [Hhd Hlt]]%head_insert_desc.
  - split; [by left|]. intros j [->|Hj]%elem_of_cons; [lia|].
    destruct (order_by_created_at_desc l) as [|h sorted] eqn:Hsorted.
    + apply order_by_created_at_desc_nil in Hsorted as ->.
      by apply elem_of_nil in Hj.
    + destruct (IH h eq_refl) as [_ Hmax].
      specialize (Hmax j Hj). specialize (Hhd h eq_refl). lia.
  - destruct (IH m Hhd) as [Hin Hmax]. split; [by right|].
    intros j [->|Hj]%elem_of_cons; [lia | by apply Hmax].
Qed.
End OrderBy.

Lemma select_last_invoice_None (s : Session) (uid sid : Z) :
  head (order_by_created_at_desc (filter (invoice_matches uid sid) (invoices s))) = None →
  ∀ j, j ∈ invoices s → ¬ invoice_matches uid sid j.
Proof.
  intros Hhd j Hj Hm.
  assert (j ∈ filter (invoice_matches uid sid) (invoices s)) as Hin
    by by apply list_elem_of_filter.
  destruct (order_by_created_at_desc _) as [|h sorted] eqn:Hsorted; [|done].
  apply order_by_created_at_desc_nil in Hsorted. rewrite Hsorted in Hin.
  by apply elem_of_nil in Hin.
Qed.

(** C5: with no user row or no shop, [get_user_shop_data] returns the null
    context; otherwise it returns the id of the first shop of the user's
    collection and the id of a newest invoice of that (user, shop) pair, or
    null when the pair has no invoice. *)
Theorem get_user_shop_data_spec (session : Session) (user : User.t) :
  match users session !! User.id user with
  | None =>
      get_user_shop_data session user
      = Ret {[ "user_shop_id" := VNone; "last_invoice_id" := VNone ]}
  | Some row =>
      match UserRow.shops row with
      | [] =>
          get_user_shop_data session user
          = Ret {[ "user_shop_id" := VNone; "last_invoice_id" := VNone ]}
      | user_shop :: _ =>
          ∃ last : value,
            get_user_shop_data session user
            = Ret {[ "user_shop_id" := VInt (Shop.id user_shop);
                     "last_invoice_id" := last ]}
            ∧ is_last_invoice_id session (User.id user) (Shop.id user_shop) last
      end
  end.
Proof.
  unfold get_user_shop_data. rewrite select_user_by_id_scalar.
  destruct (users session !! User.id user) as [row|] eqn:Hrow; simpl; [|done].
  destruct (UserRow.shops row) as [|user_shop shops]; [done|].
  unfold select_last_invoice. rewrite scalar_one_or_none_take_1. simpl.
  destruct (head _) as [inv|] eqn:Hhd.
  - exists (VInt (Invoice.id inv)). split; [done|]. right. exists inv.
    apply head_order_by_created_at_desc in Hhd as [Hin Hmax].
    apply list_elem_of_filter in Hin as [Hm Hin].
    split; [done|]. split; [done|]. split; [done|].
    intros j Hj Hmj. apply Hmax. by apply list_elem_of_filter.
  - exists VNone. split; [done|]. left. split; [done|].
    by apply select_last_invoice_None.
Qed.

(** ** Dictionaries *)

Lemma dict_get_Some (d : dict) (k : string) (v : value) :
  d !! k = Some v → dict_get d k = v.
Proof. unfold dict_get. by intros ->. Qed.

Lemma dict_get_None (d : dict) (k : string) :
  d !! k = None → dict_get d k = VNone.
Proof. unfold dict_get. by intros ->. Qed.

Lemma lookup_dict_update (d other : dict) (k : string) :
  dict_update d other !! k
  = match other !! k with Some v => Some v | None => d !! k end.
Proof.
  unfold dict_update. rewrite lookup_union.
  by destruct (other !! k), (d !! k).
Qed.

Lemma dict_truthy_true (d : dict) : dict_truthy d = true ↔ d ≠ ∅.
Proof. unfold dict_truthy. by rewrite bool_decide_eq_true. Qed.

Lemma optional_dict_truthy_true (o : option dict) :
  optional_dict_truthy o = true ↔ ∃ d, o = Some d ∧ d ≠ ∅.
Proof.
  destruct o as [d|]; simpl.
  - rewrite dict_truthy_true. split.
    + intros Hd. by exists d.
    + by intros (d' & [= <-] & Hd).
  - split; [done|]. by intros (d & [=] & _).
Qed.

(** Lookups in the dictionaries this module writes down: the keys are string
    literals, so every comparison between two of them computes. *)
Ltac dict_lookup :=
  repeat first
    [ rewrite lookup_dict_update
    | rewrite lookup_insert_eq
    | rewrite lookup_insert_ne by done
    | rewrite lookup_singleton_eq
    | rewrite lookup_singleton_ne by done
    | rewrite lookup_empty ];
  simpl.

(** The claims [to_encode] starts from survive both updates. *)
Lemma to_encode_identity (settings : Settings) (c : Clock) (user : User.t)
    (user_shop_data : option dict) (expires_delta : option Z) :
  to_encode settings c user user_shop_data expires_delta !! "user_id"
    = Some (VInt (User.id user))
  ∧ to_encode settings c user user_shop_data expires_delta !! "is_superuser"
    = Some (VBool (User.is_superuser user))
  ∧ to_encode settings c user user_shop_data expires_delta !! "sub"
    = Some (VStr (User.login user)).
Proof.
  unfold to_encode.
  destruct (optional_dict_truthy user_shop_data); by dict_lookup.
Qed.

Lemma to_encode_context (settings : Settings) (c : Clock) (user : User.t)
    (user_shop_data : option dict) (expires_delta : option Z) (k : string) :
  k = "user_shop_id" ∨ k = "last_invoice_id" →
  to_encode settings c user user_shop_data expires_delta !! k
  = if optional_dict_truthy user_shop_data
    then Some (dict_get (default ∅ user_shop_data) k)
    else None.
Proof.
  unfold to_encode.
  intros [-> | ->]; destruct (optional_dict_truthy user_shop_data); by dict_lookup.
Qed.

Lemma to_encode_exp (settings : Settings) (c : Clock) (user : User.t)
    (user_shop_data : option dict) (expires_delta : option Z) :
  to_encode settings c user user_shop_data expires_delta !! "exp"
  = Some (VDatetime
      (if optional_timedelta_truthy expires_delta
       then datetime_now c + default 0 expires_delta
       else datetime_now c + timedelta_minutes (ACCESS_TOKEN_EXPIRE_MINUTES settings))).
Proof. unfold to_encode. by dict_lookup. Qed.

(** ** The issuer: which claims [create_access_token] writes *)

(** C4, as the code has it: the payload carries the user's id, superuser
    flag and login, and the keys [user_shop_id] and [last_invoice_id] are
    present exactly when a context record was supplied and is not empty. *)
Theorem to_encode_claims (settings : Settings) (c : Clock) (user : User.t)
    (user_shop_data : option dict) (expires_delta : option Z) :
  to_encode settings c user user_shop_data expires_delta !! "user_id"
    = Some (VInt (User.id user))
  ∧ to_encode settings c user user_shop_data expires_delta !! "is_superuser"
    = Some (VBool (User.is_superuser user))
  ∧ to_encode settings c user user_shop_data expires_delta !! "sub"
    = Some (VStr (User.login user))
  ∧ (is_Some (to_encode settings c user user_shop_data expires_delta !! "user_shop_id")
     ↔ ∃ d, user_shop_data = Some d ∧ d ≠ ∅)
  ∧ (is_Some (to_encode settings c user user_shop_data expires_delta !! "last_invoice_id")
     ↔ ∃ d, user_shop_data = Some d ∧ d ≠ ∅).
Proof.
  destruct (to_encode_identity settings c user user_shop_data expires_delta)
    as (Hid & Hsuper & Hsub).
  split; [done|]. split; [done|]. split; [done|].
  rewrite !to_encode_context by auto.
  rewrite <- optional_dict_truthy_true.
  destruct (optional_dict_truthy user_shop_data); split; split;
    first [done | by intros [? [=]] | by eexists].
Qed.

(** C4 as stated fails on a context record that is supplied but empty: the
    two keys are then absent. *)
Lemma to_encode_empty_context :
  ¬ (is_Some (to_encode demo_settings (utc_clock 1000) alice (Some ∅) None !! "user_shop_id")
     ↔ is_Some (Some (∅ : dict))).
Proof.
  intros [_ Hsupplied].
  destruct Hsupplied as [v Hv]; [by eexists|].
  rewrite to_encode_context in Hv by auto. discriminate Hv.
Qed.

Lemma to_encode_issued_expiry (settings : Settings) (c : Clock) (user : User.t)
    (user_shop_data : option dict) (expires_delta : option Z) :
  to_encode settings c user user_shop_data expires_delta !! "exp"
  = Some (VDatetime (issued_expiry settings c expires_delta)).
Proof.
  rewrite to_encode_exp. unfold issued_expiry.
  destruct expires_delta as [d|]; simpl; [|done].
  case_bool_decide; case_decide; done.
Qed.

(** ** The token the issuer produces *)

Lemma lookup_to_numeric_date (claims : dict) (time_claim k : string) :
  to_numeric_date claims time_claim !! k
  = if decide (k = time_claim) then numeric_date <$> claims !! k else claims !! k.
Proof.
  unfold to_numeric_date, dict_get.
  case_decide as Hk; [subst k|].
  - destruct (claims !! time_claim) as [[]|] eqn:Hv; simpl;
      rewrite ?lookup_insert_eq, ?Hv; done.
  - destruct (default VNone (claims !! time_claim)); try done.
    by rewrite lookup_insert_ne.
Qed.

Lemma lookup_numeric_dates_time (claims : dict) (k : string) :
  k = "exp" ∨ k = "iat" ∨ k = "nbf" →
  numeric_dates claims !! k = numeric_date <$> claims !! k.
Proof.
  unfold numeric_dates. simpl. rewrite !lookup_to_numeric_date.
  intros [-> | [-> | ->]]; by repeat case_decide.
Qed.

Lemma lookup_numeric_dates_other (claims : dict) (k : string) :
  k ≠ "exp" → k ≠ "iat" → k ≠ "nbf" →
  numeric_dates claims !! k = claims !! k.
Proof.
  unfold numeric_dates. simpl. rewrite !lookup_to_numeric_date.
  intros. by repeat case_decide.
Qed.

Section Issuer.
Context (settings : Settings) (c : Clock) (user : User.t).
Context (user_shop_data : option dict) (expires_delta : option Z).

Local Abbreviation payload :=
  (to_encode settings c user user_shop_data expires_delta).

Lemma to_encode_serializable :
  context_serializable user_shop_data →
  json_serializable (numeric_dates payload).
Proof.
  intros Hctx k v.
  destruct (to_encode_identity settings c user user_shop_data expires_delta)
    as (Hid & Hsuper & Hsub).
  pose proof (to_encode_issued_expiry settings c user user_shop_data expires_delta)
    as Hexp.
  pose proof (to_encode_context settings c user user_shop_data expires_delta)
    as Hcontext.
  destruct (decide (k = "exp")) as [->|Hk_exp].
  { rewrite lookup_numeric_dates_time, Hexp by auto. by intros [= <-]. }
  destruct (decide (k = "user_id")) as [->|Hk_id].
  { rewrite lookup_numeric_dates_other, Hid by done. by intros [= <-]. }
  destruct (decide (k = "is_superuser")) as [->|Hk_super].
  { rewrite lookup_numeric_dates_other, Hsuper by done. by intros [= <-]. }
  destruct (decide (k = "sub")) as [->|Hk_sub].
  { rewrite lookup_numeric_dates_other, Hsub by done. by intros [= <-]. }
  destruct (decide (k = "user_shop_id" ∨ k = "last_invoice_id")) as [Hk|Hk].
  { assert (k ≠ "exp" ∧ k ≠ "iat" ∧ k ≠ "nbf") as (? & ? & ?)
      by (destruct Hk as [-> | ->]; done).
    rewrite lookup_numeric_dates_other, Hcontext by done.
    destruct user_shop_data as [d|]; simpl; [|done].
    destruct (dict_truthy d); [|done].
    intros [= <-]. destruct (Hctx d eq_refl). by destruct Hk as [-> | ->]. }
  assert (payload !! k = None) as Hnone.
  { unfold to_encode.
    destruct (optional_dict_truthy user_shop_data);
      rewrite ?lookup_dict_update;
      rewrite ?lookup_insert_ne, ?lookup_singleton_ne by naive_solver;
      done. }
  destruct (decide (k = "iat" ∨ k = "nbf")) as [Htime|Htime].
  - rewrite lookup_numeric_dates_time, Hnone by auto. done.
  - rewrite lookup_numeric_dates_other, Hnone by naive_solver. done.
Qed.

(** When [expire] is computed, it is the expiry of the statements. *)
Lemma expire_Ret_inv (e : Z) :
  expire settings c expires_delta = Ret e →
  e = issued_expiry settings c expires_delta.
Proof.
  unfold expire, issued_expiry, datetime_add, timedelta_of_minutes.
  destruct expires_delta as [d|]; simpl.
  - case_bool_decide; case_decide; try done.
    + case_bool_decide; [|done]. by intros [= <-].
    + simpl. repeat (case_bool_decide; simpl; try done). by intros [= <-].
  - repeat (case_bool_decide; simpl; try done). by intros [= <-].
Qed.

Lemma expire_Raise_inv (e : exn) :
  expire settings c expires_delta = Raise e → e = OverflowError.
Proof.
  unfold expire, datetime_add, timedelta_of_minutes.
  destruct (optional_timedelta_truthy expires_delta);
    repeat (case_bool_decide; simpl; try done); by intros [= <-].
Qed.

(** The expiry [to_encode] carries is the one [expire] computed. *)
Lemma to_encode_expire (e : Z) :
  expire settings c expires_delta = Ret e →
  payload !! "exp" = Some (VDatetime e).
Proof.
  intros He. rewrite (expire_Ret_inv e He). apply to_encode_issued_expiry.
Qed.

(** With such a context record, and with the expiry in range,
    [create_access_token] returns, and its token is the signed
    serialisation of the payload. *)
Lemma create_access_token_Ret (e : Z) :
  expire settings c expires_delta = Ret e →
  context_serializable user_shop_data →
  create_access_token settings c user user_shop_data expires_delta
  = Ret (JWS (ALGORITHM settings) (SECRET_KEY settings) (numeric_dates payload)).
Proof.
  intros Hexpire Hctx. unfold create_access_token, jwt_encode. rewrite Hexpire. simpl.
  case_decide as Hjson; [done|]. destruct Hjson. by apply to_encode_serializable.
Qed.

(** Whenever it returns, that is the token. *)
Lemma create_access_token_inv (t : token) :
  create_access_token settings c user user_shop_data expires_delta = Ret t →
  t = JWS (ALGORITHM settings) (SECRET_KEY settings) (numeric_dates payload)
  ∧ json_serializable (numeric_dates payload).
Proof.
  unfold create_access_token, jwt_encode.
  destruct (expire settings c expires_delta); simpl; [|discriminate].
  case_decide; [|discriminate]. by intros [= <-].
Qed.

Lemma create_access_token_expire (t : token) :
  create_access_token settings c user user_shop_data expires_delta = Ret t →
  expire settings c expires_delta = Ret (issued_expiry settings c expires_delta).
Proof.
  unfold create_access_token.
  destruct (expire settings c expires_delta) as [e|] eqn:Hexpire; simpl; [|discriminate].
  intros _. by rewrite (expire_Ret_inv e Hexpire).
Qed.

Lemma issued_claims_exp :
  numeric_dates payload !! "exp"
  = Some (VInt (timegm (issued_expiry settings c expires_delta))).
Proof.
  rewrite lookup_numeric_dates_time by auto.
  by rewrite to_encode_issued_expiry.
Qed.

Lemma issued_claims_identity :
  numeric_dates payload !! "user_id" = Some (VInt (User.id user))
  ∧ numeric_dates payload !! "is_superuser" = Some (VBool (User.is_superuser user))
  ∧ numeric_dates payload !! "sub" = Some (VStr (User.login user)).
Proof.
  destruct (to_encode_identity settings c user user_shop_data expires_delta)
    as (Hid & Hsuper & Hsub).
  by rewrite !lookup_numeric_dates_other.
Qed.
End Issuer.

(** C3, as the code has it: every token [create_access_token] returns has
    [exp] set, and on a server whose local time is UTC its value is the
    current time plus the explicit duration when one is given and is not
    zero, and the current time plus the configured minutes otherwise (no
    duration, or a zero one). *)
Theorem create_access_token_exp (settings : Settings) (c : Clock) (user : User.t)
    (user_shop_data : option dict) (expires_delta : option Z) (t : token) :
  create_access_token settings c user user_shop_data expires_delta = Ret t →
  ∃ claims,
    t = JWS (ALGORITHM settings) (SECRET_KEY settings) claims
    ∧ is_Some (claims !! "exp")
    ∧ (utcoffset c = 0 →
       ∃ expire : Z,
         expire
         = match expires_delta with
           | Some d =>
               if decide (d = 0)
               then utc_instant c
                    + timedelta_minutes (ACCESS_TOKEN_EXPIRE_MINUTES settings)
               else utc_instant c + d
           | None =>
               utc_instant c + timedelta_minutes (ACCESS_TOKEN_EXPIRE_MINUTES settings)
           end
         ∧ to_encode settings c user user_shop_data expires_delta !! "exp"
           = Some (VDatetime expire)
         ∧ claims !! "exp" = Some (VInt (timegm expire))).
Proof.
  intros [-> _]%create_access_token_inv.
  eexists. split; [done|].
  rewrite issued_claims_exp, to_encode_issued_expiry.
  split; [by eexists|].
  intros Hutc. eexists. split; [done|].
  unfold issued_expiry, datetime_now. rewrite Hutc, Z.add_0_r. done.
Qed.

Lemma create_access_token_exp_witness :
  create_access_token demo_settings (utc_clock 1000) alice None
    (Some (timedelta_minutes 5))
  = Ret (JWS "HS256" "s3cret"
           {[ "user_id" := VInt 1; "is_superuser" := VBool false;
              "sub" := VStr "alice"; "exp" := VInt 1300 ]})
  ∧ ∃ claims,
      JWS "HS256" "s3cret"
        {[ "user_id" := VInt 1; "is_superuser" := VBool false;
           "sub" := VStr "alice"; "exp" := VInt 1300 ]}
      = JWS (ALGORITHM demo_settings) (SECRET_KEY demo_settings) claims
      ∧ is_Some (claims !! "exp")
      ∧ (utcoffset (utc_clock 1000) = 0 →
         ∃ expire : Z,
           expire
           = (if decide (timedelta_minutes 5 = 0)
              then utc_instant (utc_clock 1000)
                   + timedelta_minutes (ACCESS_TOKEN_EXPIRE_MINUTES demo_settings)
              else utc_instant (utc_clock 1000) + timedelta_minutes 5)
           ∧ to_encode demo_settings (utc_clock 1000) alice None
               (Some (timedelta_minutes 5)) !! "exp"
             = Some (VDatetime expire)
           ∧ claims !! "exp" = Some (VInt (timegm expire))).
Proof.
  split; [vm_compute; reflexivity|].
  apply (create_access_token_exp demo_settings (utc_clock 1000) alice None
           (Some (timedelta_minutes 5))).
  vm_compute; reflexivity.
Defined.

(** C3 as stated fails on an explicit duration of zero: on a server in UTC,
    at 1000 s, the token's expiry is 2800 s, the configured thirty minutes
    later, and not 1000 s. *)
Lemma create_access_token_zero_duration :
  ∃ claims,
    create_access_token demo_settings (utc_clock 1000) alice None (Some 0)
    = Ret (JWS "HS256" "s3cret" claims)
    ∧ claims !! "exp" = Some (VInt 2800)
    ∧ utcoffset (utc_clock 1000) = 0
    ∧ timegm (utc_instant (utc_clock 1000) + 0) = 1000.
Proof.
  eexists. split.
  - eapply create_access_token_Ret; [vm_compute; reflexivity | done].
  - split; [by rewrite issued_claims_exp|]. done.
Qed.

(** ** The decoder *)

Lemma jwt_decode_Ret_inv (t : token) (key : string) (algorithms : list string)
    (c : Clock) (payload : dict) :
  jwt_decode t key algorithms c = Ret payload →
  ∃ alg, t = JWS alg key payload
    ∧ alg ∈ algorithms
    ∧ validate_exp payload (timegm (datetime_utcnow c)) = Ret ().
Proof.
  destruct t as [s|alg k claims]; simpl; [done|].
  case_decide as Hok; [|done]. destruct Hok as (_ & Halg & ->).
  destruct (validate_exp claims _) as [[]|] eqn:Hexp; simpl; [|done].
  destruct (validate_sub claims) as [[]|]; simpl; [|done].
  intros [= <-]. by exists alg.
Qed.

Lemma validate_exp_Raise (claims : dict) (now : Z) (e : exn) :
  validate_exp claims now = Raise e → e = JWTError ∨ e = TypeError.
Proof.
  unfold validate_exp. destruct (claims !! "exp") as [v|]; [|done].
  destruct v as [|b|n|s|d]; simpl;
    try destruct (py_int_of_string s);
    try case_bool_decide; intros [= <-]; auto.
Qed.

Lemma validate_sub_Raise (claims : dict) (e : exn) :
  validate_sub claims = Raise e → e = JWTError.
Proof.
  unfold validate_sub. destruct (claims !! "sub") as [[]|]; by intros [= <-].
Qed.

(** The decoder raises [JWTError], or the [TypeError] of an [exp] that
    [int] does not take, and nothing else. *)
Lemma jwt_decode_Raise (t : token) (key : string) (algorithms : list string)
    (c : Clock) (e : exn) :
  jwt_decode t key algorithms c = Raise e → e = JWTError ∨ e = TypeError.
Proof.
  destruct t as [s|alg k claims]; simpl; [intros [= <-]; auto|].
  case_decide; [|intros [= <-]; auto].
  destruct (validate_exp claims _) as [[]|e'] eqn:Hexp; simpl.
  - destruct (validate_sub claims) as [[]|e'] eqn:Hsub; simpl; [done|].
    intros [= <-]. left. by eapply validate_sub_Raise.
  - intros [= <-]. by eapply validate_exp_Raise.
Qed.

Lemma jwt_decode_wrong_key (alg k : string) (claims : dict) (key : string)
    (algorithms : list string) (c : Clock) :
  k ≠ key → jwt_decode (JWS alg k claims) key algorithms c = Raise JWTError.
Proof. intros Hk. simpl. case_decide as Hok; [|done]. by destruct Hok as (_ & _ & ?). Qed.

Lemma jwt_decode_expired (alg k : string) (claims : dict) (key : string)
    (algorithms : list string) (c : Clock) (exp : Z) :
  claims !! "exp" = Some (VInt exp) →
  exp < timegm (datetime_utcnow c) →
  jwt_decode (JWS alg k claims) key algorithms c = Raise JWTError.
Proof.
  intros Hexp Hlt. simpl. case_decide; [|done].
  unfold validate_exp. rewrite Hexp. cbn [py_int]. by rewrite bool_decide_eq_true_2.
Qed.

(** A serialisable claim set with an integer expiry that has not passed and
    a string subject decodes to itself under its own key and algorithm. *)
Lemma jwt_decode_Ret (alg key : string) (claims : dict) (c : Clock) (exp : Z) (sub : string) :
  json_serializable claims →
  claims !! "exp" = Some (VInt exp) →
  timegm (datetime_utcnow c) ≤ exp →
  claims !! "sub" = Some (VStr sub) →
  jwt_decode (JWS alg key claims) key [alg] c = Ret claims.
Proof.
  intros Hjson Hexp Hle Hsub. simpl.
  case_decide as Hok.
  - unfold validate_exp, validate_sub. rewrite Hexp, Hsub. cbn [py_int].
    rewrite bool_decide_eq_false_2 by lia. done.
  - destruct Hok. split; [done|]. split; [|done]. apply list_elem_of_singleton. done.
Qed.

Lemma timegm_mono (d1 d2 : Z) : d1 ≤ d2 → timegm d1 ≤ timegm d2.
Proof. intros. unfold timegm. apply Z.div_le_mono; lia. Qed.

(** Round trip: on a server whose local time is not behind UTC, a token
    issued with a non-zero duration decodes, until that duration has
    passed, to the claims it was issued with. *)
Lemma create_access_token_roundtrip (settings : Settings) (c0 c1 : Clock)
    (user : User.t) (user_shop_data : option dict) (d : Z) (t : token) :
  0 ≤ utcoffset c0 →
  0 < d →
  utc_instant c1 < utc_instant c0 + d →
  create_access_token settings c0 user user_shop_data (Some d) = Ret t →
  ∃ payload,
    jwt_decode t (SECRET_KEY settings) [ALGORITHM settings] c1 = Ret payload
    ∧ payload !! "user_id" = Some (VInt (User.id user))
    ∧ payload !! "is_superuser" = Some (VBool (User.is_superuser user)).
Proof.
  intros Hoffset Hd Hbefore [-> Hjson]%create_access_token_inv.
  destruct (issued_claims_identity settings c0 user user_shop_data (Some d))
    as (Hid & Hsuper & Hsub).
  eexists. split; [|done].
  eapply jwt_decode_Ret; [done | apply issued_claims_exp | | done].
  apply timegm_mono. unfold issued_expiry, datetime_utcnow, datetime_now.
  case_decide; lia.
Qed.

Example create_access_token_roundtrip_utc :
  ∃ payload,
    jwt_decode (alice_token false) (SECRET_KEY demo_settings) [ALGORITHM demo_settings]
      (utc_clock 2799) = Ret payload
    ∧ payload !! "user_id" = Some (VInt (User.id alice))
    ∧ payload !! "is_superuser" = Some (VBool (User.is_superuser alice)).
Proof.
  apply (create_access_token_roundtrip demo_settings (utc_clock 1000) (utc_clock 2799)
           alice (Some {[ "user_shop_id" := VInt 10; "last_invoice_id" := VInt 101 ]})
           (timedelta_minutes 30)); by vm_compute.
Qed.

(** C2 fails on a server west of UTC: the expiry is computed from local
    wall-clock time and checked against UTC.  Five hours behind UTC, a token
    issued for thirty minutes is refused as expired one second later. *)
Lemma create_access_token_roundtrip_west_of_utc :
  ∃ t,
    create_access_token demo_settings (new_york_clock 100000) alice None
      (Some (timedelta_minutes 30)) = Ret t
    ∧ 0 < timedelta_minutes 30
    ∧ utc_instant (new_york_clock 100001)
      < utc_instant (new_york_clock 100000) + timedelta_minutes 30
    ∧ jwt_decode t (SECRET_KEY demo_settings) [ALGORITHM demo_settings]
        (new_york_clock 100001) = Raise JWTError.
Proof.
  eexists. split.
  { eapply create_access_token_Ret; [vm_compute; reflexivity | done]. }
  split; [done|]. split; [done|].
  eapply jwt_decode_expired; [apply issued_claims_exp|]. by vm_compute.
Qed.

(** ** The verifier *)

Section Verifier.
Context (settings : Settings) (c : Clock) (session : Session).

Local Abbreviation decode t :=
  (jwt_decode t (SECRET_KEY settings) [ALGORITHM settings] c).

(** What is left of [get_current_user] once [jwt.decode] has failed. *)
Lemma get_current_user_JWTError (t : token) :
  decode t = Raise JWTError →
  get_current_user settings c t session = Raise (HTTPError credentials_exception).
Proof.
  unfold get_current_user, decode_token_data. by intros ->.
Qed.

(** ... once it has raised anything else ... *)
Lemma get_current_user_decode_Raise (t : token) (e : exn) :
  decode t = Raise e → e ≠ JWTError →
  get_current_user settings c t session = Raise e.
Proof.
  unfold get_current_user, decode_token_data. intros -> He. by destruct e.
Qed.

Lemma get_current_user_Raise (t : token) (e : exn) :
  decode t = Raise e →
  get_current_user settings c t session
  = Raise match e with JWTError => HTTPError credentials_exception | _ => e end.
Proof.
  unfold get_current_user, decode_token_data. intros ->. by destruct e.
Qed.

(** ... and once it has returned a payload. *)
Lemma get_current_user_payload (t : token) (payload : dict) :
  decode t = Ret payload →
  get_current_user settings c t session
  = match bound_pk settings (dict_get payload "user_id") with
    | None => Raise (HTTPError credentials_exception)
    | Some pk =>
        match users session !! pk with
        | None => Raise (HTTPError credentials_exception)
        | Some row =>
            if UserRow.is_active row
            then Ret (User.set_last_invoice_id
                        (User.set_current_shop_id (User.load pk row)
                           (dict_get payload "user_shop_id"))
                        (dict_get payload "last_invoice_id"))
            else Raise (HTTPError inactive_user_exception)
        end
    end.
Proof.
  unfold get_current_user, decode_token_data. intros ->. simpl.
  destruct (dict_get payload "user_id") as [|b|pk|s|d] eqn:Hid; simpl; [done|..];
    rewrite select_user_where_id_scalar; simpl;
    match goal with
    | |- context [ DB_integer settings ?v ] => destruct (DB_integer settings v) as [pk|]
    | _ => idtac
    end; simpl; try done;
    (destruct (users session !! pk) as [row|]; simpl; [|done];
     by destruct (UserRow.is_active row)).
Qed.

Lemma get_current_user_Ret_inv (t : token) (user : User.t) :
  get_current_user settings c t session = Ret user →
  ∃ payload pk row,
    decode t = Ret payload
    ∧ bound_pk settings (dict_get payload "user_id") = Some pk
    ∧ users session !! pk = Some row
    ∧ UserRow.is_active row = true
    ∧ user = User.set_last_invoice_id
               (User.set_current_shop_id (User.load pk row)
                  (dict_get payload "user_shop_id"))
               (dict_get payload "last_invoice_id").
Proof.
  destruct (decode t) as [payload|e] eqn:Hdecode.
  - rewrite (get_current_user_payload t payload Hdecode).
    destruct (bound_pk settings _) as [pk|] eqn:Hpk; [|done].
    destruct (users session !! pk) as [row|] eqn:Hrow; [|done].
    destruct (UserRow.is_active row) eqn:Hactive; [|done].
    intros [= <-]. by exists payload, pk, row.
  - destruct e;
      first [ by rewrite get_current_user_JWTError
            | by rewrite (get_current_user_decode_Raise t _ Hdecode) ].
Qed.
End Verifier.

(** C1: a malformed token, a token signed with another key, any token the
    decoder refuses, a payload without [user_id] and a [user_id] that no
    stored user has are all answered with the same exception: status 401,
    detail "Could not validate credentials", header [WWW-Authenticate:
    Bearer].  A valid token of a stored but inactive user is answered with
    status 400, detail "Inactive user". *)
Theorem get_current_user_rejections (settings : Settings) (c : Clock)
    (session : Session) (t : token) :
  let unauthorized :=
    Raise (HTTPError
      {| HTTPException.status_code := 401;
         HTTPException.detail := "Could not validate credentials";
         HTTPException.headers := Some {[ "WWW-Authenticate" := "Bearer" ]} |}) in
  let inactive :=
    Raise (HTTPError
      {| HTTPException.status_code := 400;
         HTTPException.detail := "Inactive user";
         HTTPException.headers := None |}) in
  let decoded := jwt_decode t (SECRET_KEY settings) [ALGORITHM settings] c in
  ((∃ s, t = Opaque s) → get_current_user settings c t session = unauthorized)
  ∧ ((∃ alg k claims, t = JWS alg k claims ∧ k ≠ SECRET_KEY settings) →
     get_current_user settings c t session = unauthorized)
  ∧ (decoded = Raise JWTError → get_current_user settings c t session = unauthorized)
  ∧ (∀ payload,
       decoded = Ret payload → payload !! "user_id" = None →
       get_current_user settings c t session = unauthorized)
  ∧ (∀ payload pk,
       decoded = Ret payload → payload !! "user_id" = Some (VInt pk) →
       users session !! pk = None →
       get_current_user settings c t session = unauthorized)
  ∧ (∀ payload pk row,
       decoded = Ret payload → payload !! "user_id" = Some (VInt pk) →
       users session !! pk = Some row → UserRow.is_active row = false →
       get_current_user settings c t session = inactive).
Proof.
  intros unauthorized inactive decoded. subst unauthorized inactive decoded.
  repeat split.
  - intros [s ->]. by apply get_current_user_JWTError.
  - intros (alg & k & claims & -> & Hk).
    apply get_current_user_JWTError. by apply jwt_decode_wrong_key.
  - apply get_current_user_JWTError.
  - intros payload Hdecode Hid.
    rewrite (get_current_user_payload _ _ _ _ _ Hdecode).
    by rewrite (dict_get_None _ _ Hid).
  - intros payload pk Hdecode Hid Hrow.
    rewrite (get_current_user_payload _ _ _ _ _ Hdecode).
    rewrite (dict_get_Some _ _ _ Hid). cbn [bound_pk]. by rewrite Hrow.
  - intros payload pk row Hdecode Hid Hrow Hactive.
    rewrite (get_current_user_payload _ _ _ _ _ Hdecode).
    rewrite (dict_get_Some _ _ _ Hid). cbn [bound_pk]. by rewrite Hrow, Hactive.
Qed.

(** C6, as the code has it: a token whose [exp] is below the current UTC
    time counted in whole seconds is answered with the 401 credentials
    exception, whatever key signed it. *)
Theorem get_current_user_expired (settings : Settings) (c : Clock)
    (session : Session) (alg k : string) (claims : dict) (exp : Z) :
  claims !! "exp" = Some (VInt exp) →
  exp < timegm (datetime_utcnow c) →
  get_current_user settings c (JWS alg k claims) session
  = Raise (HTTPError credentials_exception).
Proof.
  intros Hexp Hlt. apply get_current_user_JWTError.
  by eapply jwt_decode_expired.
Qed.

Lemma get_current_user_expired_witness :
  ({[ "user_id" := VInt 1; "exp" := VInt 2800 ]} : dict) !! "exp" = Some (VInt 2800)
  ∧ 2800 < timegm (datetime_utcnow (utc_clock 2801))
  ∧ get_current_user demo_settings (utc_clock 2801)
      (JWS "HS256" "s3cret" {[ "user_id" := VInt 1; "exp" := VInt 2800 ]}) demo_session
    = Raise (HTTPError credentials_exception).
Proof.
  split; [reflexivity|]. split; [reflexivity|].
  apply (get_current_user_expired demo_settings (utc_clock 2801) demo_session
           "HS256" "s3cret" _ 2800); reflexivity.
Defined.

(** C6 as stated fails inside the second the expiry names: the token issued
    at 1000 s for thirty minutes expires at 2800 s, and half a second after
    that it still resolves its user. *)
Lemma get_current_user_within_expiry_second :
  ∃ t claims,
    create_access_token demo_settings (utc_clock 1000) alice None None = Ret t
    ∧ t = JWS "HS256" "s3cret" claims
    ∧ claims !! "exp" = Some (VInt 2800)
    ∧ 2800 * 1000000 < datetime_utcnow {| utc_instant := 2800500000; utcoffset := 0 |}
    ∧ get_current_user demo_settings {| utc_instant := 2800500000; utcoffset := 0 |}
        t demo_session
      = Ret (User.set_last_invoice_id (User.set_current_shop_id alice VNone) VNone).
Proof.
  do 2 eexists. split.
  { eapply create_access_token_Ret; [vm_compute; reflexivity | done]. }
  split; [reflexivity|].
  split; [by rewrite issued_claims_exp|].
  split; [done|]. by vm_compute.
Qed.

(** C8: the user [get_current_user] returns has [current_shop_id] and
    [last_invoice_id] set to the payload's [user_shop_id] and
    [last_invoice_id], and to [None] where the payload lacks the claim. *)
Theorem get_current_user_context (settings : Settings) (c : Clock)
    (session : Session) (t : token) (user : User.t) :
  get_current_user settings c t session = Ret user →
  ∃ payload,
    jwt_decode t (SECRET_KEY settings) [ALGORITHM settings] c = Ret payload
    ∧ User.current_shop_id user
      = Some match payload !! "user_shop_id" with Some v => v | None => VNone end
    ∧ User.last_invoice_id user
      = Some match payload !! "last_invoice_id" with Some v => v | None => VNone end.
Proof.
  intros (payload & pk & row & Hdecode & _ & _ & _ & ->)%get_current_user_Ret_inv.
  exists payload. split; [done|]. split; simpl; unfold dict_get;
    by destruct (payload !! _).
Qed.

Lemma get_current_user_context_witness :
  get_current_user demo_settings (utc_clock 1001) (alice_token false) demo_session
    = Ret alice_resolved
  ∧ ∃ payload,
      jwt_decode (alice_token false) (SECRET_KEY demo_settings)
        [ALGORITHM demo_settings] (utc_clock 1001) = Ret payload
      ∧ User.current_shop_id alice_resolved
        = Some match payload !! "user_shop_id" with Some v => v | None => VNone end
      ∧ User.last_invoice_id alice_resolved
        = Some match payload !! "last_invoice_id" with Some v => v | None => VNone end.
Proof.
  split; [vm_compute; reflexivity|].
  apply (get_current_user_context demo_settings (utc_clock 1001) demo_session
           (alice_token false) alice_resolved).
  vm_compute; reflexivity.
Defined.



Lemma dict_get_delete (d1 d2 : dict) (k k' : string) :
  delete k d1 = delete k d2 → k' ≠ k → dict_get d1 k' = dict_get d2 k'.
Proof.
  intros Hagree Hk. unfold dict_get.
  rewrite <- (lookup_delete_ne d1 k k'), <- (lookup_delete_ne d2 k k') by done.
  by rewrite Hagree.
Qed.

(** C10: two tokens that both decode and whose payloads agree on every
    claim but [is_superuser] get the same answer on the same store, and a
    returned user's superuser flag is the stored row's. *)
Theorem get_current_user_ignores_is_superuser (settings : Settings) (c : Clock)
    (session : Session) (t1 t2 : token) (payload1 payload2 : dict) :
  jwt_decode t1 (SECRET_KEY settings) [ALGORITHM settings] c = Ret payload1 →
  jwt_decode t2 (SECRET_KEY settings) [ALGORITHM settings] c = Ret payload2 →
  delete "is_superuser" payload1 = delete "is_superuser" payload2 →
  get_current_user settings c t1 session = get_current_user settings c t2 session
  ∧ ∀ user, get_current_user settings c t1 session = Ret user →
      ∃ pk row, users session !! pk = Some row
        ∧ User.is_superuser user = UserRow.is_superuser row.
Proof.
  intros Hdecode1 Hdecode2 Hagree. split.
  - rewrite (get_current_user_payload _ _ _ _ _ Hdecode1).
    rewrite (get_current_user_payload _ _ _ _ _ Hdecode2).
    by rewrite !(dict_get_delete payload1 payload2 "is_superuser" _ Hagree).
  - intros user (payload & pk & row & _ & _ & Hrow & _ & ->)%get_current_user_Ret_inv.
    by exists pk, row.
Qed.

Lemma get_current_user_ignores_is_superuser_witness :
  jwt_decode (alice_token false) (SECRET_KEY demo_settings) [ALGORITHM demo_settings]
    (utc_clock 1001) = Ret (alice_claims false)
  ∧ jwt_decode (alice_token true) (SECRET_KEY demo_settings) [ALGORITHM demo_settings]
      (utc_clock 1001) = Ret (alice_claims true)
  ∧ delete "is_superuser" (alice_claims false) = delete "is_superuser" (alice_claims true)
  ∧ get_current_user demo_settings (utc_clock 1001) (alice_token false) demo_session
    = get_current_user demo_settings (utc_clock 1001) (alice_token true) demo_session
  ∧ ∀ user,
      get_current_user demo_settings (utc_clock 1001) (alice_token false) demo_session
        = Ret user →
      ∃ pk row, users demo_session !! pk = Some row
        ∧ User.is_superuser user = UserRow.is_superuser row.
Proof.
  split; [vm_compute; reflexivity|].
  split; [vm_compute; reflexivity|].
  split; [vm_compute; reflexivity|].
  apply (get_current_user_ignores_is_superuser demo_settings (utc_clock 1001)
           demo_session (alice_token false) (alice_token true)
           (alice_claims false) (alice_claims true));
    vm_compute; reflexivity.
Defined.

(** * Further properties of the three functions *)

(** ** [get_user_shop_data] *)

Lemma get_user_shop_data_shape (session : Session) (user : User.t) :
  ∃ shop last : value,
    get_user_shop_data session user
    = Ret {[ "user_shop_id" := shop; "last_invoice_id" := last ]}
    ∧ is_json shop = true ∧ is_json last = true.
Proof.
  unfold get_user_shop_data. rewrite select_user_by_id_scalar.
  destruct (users session !! User.id user) as [row|]; simpl;
    [|by exists VNone, VNone].
  destruct (UserRow.shops row) as [|user_shop shops]; [by exists VNone, VNone|].
  unfold select_last_invoice. rewrite scalar_one_or_none_take_1. simpl.
  destruct (head _) as [inv|]; by eexists _, _.
Qed.

(** X1: [get_user_shop_data] never raises, and the record it returns has
    exactly the two keys [user_shop_id] and [last_invoice_id]; so the
    record is never empty. *)
Theorem get_user_shop_data_keys (session : Session) (user : User.t) :
  ∃ d : dict,
    get_user_shop_data session user = Ret d
    ∧ dom d = {[ "user_shop_id"; "last_invoice_id" ]}
    ∧ dict_truthy d = true.
Proof.
  destruct (get_user_shop_data_shape session user) as (shop & last & -> & _).
  eexists. split; [done|]. split.
  - by rewrite dom_insert_L, dom_singleton_L.
  - apply dict_truthy_true. apply insert_non_empty.
Qed.

(** X2: a strictly newest invoice of the user on the first shop is the one
    reported, whatever other invoices the store holds. *)
Theorem get_user_shop_data_newest (session : Session) (user : User.t)
    (row : UserRow.t) (user_shop : Shop.t) (shops : list Shop.t) (inv : Invoice.t) :
  users session !! User.id user = Some row →
  UserRow.shops row = user_shop :: shops →
  inv ∈ invoices session →
  invoice_matches (User.id user) (Shop.id user_shop) inv →
  (∀ j, j ∈ invoices session →
        invoice_matches (User.id user) (Shop.id user_shop) j →
        j ≠ inv → Invoice.created_at j < Invoice.created_at inv) →
  get_user_shop_data session user
  = Ret {[ "user_shop_id" := VInt (Shop.id user_shop);
           "last_invoice_id" := VInt (Invoice.id inv) ]}.
Proof.
  intros Hrow Hshops Hin Hmatch Hnewest.
  unfold get_user_shop_data. rewrite select_user_by_id_scalar, Hrow. simpl.
  rewrite Hshops. unfold select_last_invoice.
  rewrite scalar_one_or_none_take_1. simpl.
  assert (inv ∈ filter (invoice_matches (User.id user) (Shop.id user_shop))
                  (invoices session)) as Hfiltered
    by by apply list_elem_of_filter.
  destruct (head _) as [m|] eqn:Hhd.
  - apply head_order_by_created_at_desc in Hhd as [Hm Hmax].
    destruct (decide (m = inv)) as [->|Hne]; [done|].
    apply list_elem_of_filter in Hm as [Hm_match Hm_in].
    specialize (Hnewest m Hm_in Hm_match Hne). specialize (Hmax inv Hfiltered). lia.
  - by destruct (select_last_invoice_None _ _ _ Hhd inv Hin).
Qed.

Lemma get_user_shop_data_newest_witness :
  users demo_session !! User.id alice = Some alice_row
  ∧ UserRow.shops alice_row = Shop.mk 10 :: [Shop.mk 11]
  ∧ Invoice.mk 101 1 10 7000 ∈ invoices demo_session
  ∧ invoice_matches (User.id alice) 10 (Invoice.mk 101 1 10 7000)
  ∧ get_user_shop_data demo_session alice
    = Ret {[ "user_shop_id" := VInt 10; "last_invoice_id" := VInt 101 ]}.
Proof.
  split; [reflexivity|]. split; [reflexivity|].
  split; [simpl; rewrite !elem_of_cons; auto|].
  split; [by split|].
  apply (get_user_shop_data_newest demo_session alice alice_row (Shop.mk 10)
           [Shop.mk 11] (Invoice.mk 101 1 10 7000)).
  - reflexivity.
  - reflexivity.
  - simpl. rewrite !elem_of_cons. auto.
  - by split.
  - intros j Hj [Huser Hshop] Hne. simpl in Hj.
    repeat (apply elem_of_cons in Hj as [->|Hj]); simpl in *;
      first [lia | done | by apply elem_of_nil in Hj].
Defined.

(** ** [create_access_token] *)

(** X3: the payload has the keys [user_id], [is_superuser], [sub] and [exp],
    plus [user_shop_id] and [last_invoice_id] when a non-empty context
    record is given, and no other: whatever else the context record holds
    never reaches the payload. *)
Theorem to_encode_dom (settings : Settings) (c : Clock) (user : User.t)
    (user_shop_data : option dict) (expires_delta : option Z) :
  dom (to_encode settings c user user_shop_data expires_delta)
  = if optional_dict_truthy user_shop_data
    then {[ "user_id"; "is_superuser"; "sub"; "user_shop_id"; "last_invoice_id"; "exp" ]}
    else {[ "user_id"; "is_superuser"; "sub"; "exp" ]}.
Proof.
  unfold to_encode, dict_update.
  destruct (optional_dict_truthy user_shop_data);
    rewrite ?dom_union_L, ?dom_insert_L, ?dom_singleton_L;
    apply set_eq; intros k; rewrite ?elem_of_union, ?elem_of_singleton; tauto.
Qed.

Lemma issued_claims_context (settings : Settings) (c : Clock) (user : User.t)
    (user_shop_data : option dict) (expires_delta : option Z) (k : string) :
  k = "user_shop_id" ∨ k = "last_invoice_id" →
  numeric_dates (to_encode settings c user user_shop_data expires_delta) !! k
  = issued_context user_shop_data k.
Proof.
  intros Hk. unfold issued_context.
  rewrite lookup_numeric_dates_other by (destruct Hk as [-> | ->]; done).
  by apply to_encode_context.
Qed.

(** X4: a context record cannot override the identity of the token: with
    entries of its own under [user_id], [is_superuser], [sub] or [exp], the
    token that comes out still carries the user's id, flag and login and the
    computed expiry. *)
Theorem create_access_token_identity (settings : Settings) (c : Clock) (user : User.t)
    (user_shop_data : option dict) (expires_delta : option Z) (t : token) :
  create_access_token settings c user user_shop_data expires_delta = Ret t →
  ∃ claims,
    t = JWS (ALGORITHM settings) (SECRET_KEY settings) claims
    ∧ claims !! "user_id" = Some (VInt (User.id user))
    ∧ claims !! "is_superuser" = Some (VBool (User.is_superuser user))
    ∧ claims !! "sub" = Some (VStr (User.login user))
    ∧ claims !! "exp" = Some (VInt (timegm (issued_expiry settings c expires_delta))).
Proof.
  intros [-> _]%create_access_token_inv.
  destruct (issued_claims_identity settings c user user_shop_data expires_delta)
    as (Hid & Hsuper & Hsub).
  eexists. split; [done|]. split; [done|]. split; [done|]. split; [done|].
  apply issued_claims_exp.
Qed.

Lemma create_access_token_identity_witness :
  create_access_token demo_settings (utc_clock 1000) alice (Some forged_context) None
    = Ret (alice_token false)
  ∧ ∃ claims,
      alice_token false = JWS (ALGORITHM demo_settings) (SECRET_KEY demo_settings) claims
      ∧ claims !! "user_id" = Some (VInt (User.id alice))
      ∧ claims !! "is_superuser" = Some (VBool (User.is_superuser alice))
      ∧ claims !! "sub" = Some (VStr (User.login alice))
      ∧ claims !! "exp"
        = Some (VInt (timegm (issued_expiry demo_settings (utc_clock 1000) None))).
Proof.
  split; [vm_compute; reflexivity|].
  apply (create_access_token_identity demo_settings (utc_clock 1000) alice
           (Some forged_context) None).
  vm_compute; reflexivity.
Defined.

(** X5: a token issued with the record [get_user_shop_data] returns
    carries both context keys with the values of the record; the record
    never makes [jwt.encode] raise [TypeError]. *)
Theorem create_access_token_shop_context (settings : Settings) (c : Clock)
    (session : Session) (user : User.t) (expires_delta : option Z) (d : dict) :
  get_user_shop_data session user = Ret d →
  create_access_token settings c user (Some d) expires_delta ≠ Raise TypeError
  ∧ ∀ t, create_access_token settings c user (Some d) expires_delta = Ret t →
      ∃ claims,
        t = JWS (ALGORITHM settings) (SECRET_KEY settings) claims
        ∧ is_Some (d !! "user_shop_id")
        ∧ claims !! "user_shop_id" = d !! "user_shop_id"
        ∧ is_Some (d !! "last_invoice_id")
        ∧ claims !! "last_invoice_id" = d !! "last_invoice_id".
Proof.
  destruct (get_user_shop_data_shape session user)
    as (shop & last & -> & Hshop & Hlast).
  intros [= <-].
  assert (context_serializable
            (Some ({[ "user_shop_id" := shop; "last_invoice_id" := last ]} : dict)))
    as Hctx.
  { intros d [= <-]. unfold dict_get.
    by rewrite lookup_insert_eq, lookup_insert_ne, lookup_singleton_eq. }
  split.
  - destruct (expire settings c expires_delta) as [e|e] eqn:Hexpire.
    + by rewrite (create_access_token_Ret _ _ _ _ _ e Hexpire Hctx).
    + unfold create_access_token. rewrite Hexpire. simpl.
      by rewrite (expire_Raise_inv _ _ _ _ Hexpire).
  - intros t [-> _]%create_access_token_inv. eexists. split; [done|].
    rewrite !issued_claims_context by auto. unfold issued_context.
    assert (optional_dict_truthy
              (Some ({[ "user_shop_id" := shop; "last_invoice_id" := last ]} : dict))
            = true) as ->.
    { apply dict_truthy_true. apply insert_non_empty. }
    simpl. unfold dict_get.
    rewrite lookup_insert_eq, lookup_insert_ne, lookup_singleton_eq by done.
    by repeat split.
Qed.

Lemma create_access_token_shop_context_witness :
  get_user_shop_data demo_session alice
    = Ret {[ "user_shop_id" := VInt 10; "last_invoice_id" := VInt 101 ]}
  ∧ create_access_token demo_settings (utc_clock 1000) alice
      (Some {[ "user_shop_id" := VInt 10; "last_invoice_id" := VInt 101 ]}) None
    = Ret (alice_token false)
  ∧ alice_claims false !! "user_shop_id" = Some (VInt 10)
  ∧ alice_claims false !! "last_invoice_id" = Some (VInt 101).
Proof.
  split; [vm_compute; reflexivity|]. split; [vm_compute; reflexivity|].
  destruct (create_access_token_shop_context demo_settings (utc_clock 1000)
              demo_session alice None
              {[ "user_shop_id" := VInt 10; "last_invoice_id" := VInt 101 ]})
    as [_ Hissued]; [vm_compute; reflexivity|].
  destruct (Hissued (alice_token false)) as (claims & Htoken & _ & Hshop & _ & Hinvoice);
    [vm_compute; reflexivity|].
  injection Htoken as <-. split; [exact Hshop | exact Hinvoice].
Defined.

(** ** Validity window of an issued token *)

Lemma jwt_decode_window (alg key : string) (claims : dict) (c : Clock)
    (exp : Z) (sub : string) :
  json_serializable claims →
  claims !! "exp" = Some (VInt exp) →
  claims !! "sub" = Some (VStr sub) →
  jwt_decode (JWS alg key claims) key [alg] c
  = if bool_decide (timegm (datetime_utcnow c) ≤ exp) then Ret claims
    else Raise JWTError.
Proof.
  intros Hjson Hexp Hsub. case_bool_decide as Hle.
  - by eapply jwt_decode_Ret.
  - eapply jwt_decode_expired; [done|lia].
Qed.

(** X6: under the configured key and algorithm, a token that
    [create_access_token] returned decodes to its claims as long as the UTC
    clock, in whole seconds, has not passed the whole second of its expiry
    (local issue time plus duration), and raises [JWTError] from the next
    second on. *)
Theorem issued_token_window (settings : Settings) (c0 c1 : Clock) (user : User.t)
    (user_shop_data : option dict) (expires_delta : option Z) (t : token) :
  create_access_token settings c0 user user_shop_data expires_delta = Ret t →
  jwt_decode t (SECRET_KEY settings) [ALGORITHM settings] c1
  = if bool_decide (timegm (datetime_utcnow c1)
                    ≤ timegm (issued_expiry settings c0 expires_delta))
    then Ret (numeric_dates (to_encode settings c0 user user_shop_data expires_delta))
    else Raise JWTError.
Proof.
  intros [-> Hjson]%create_access_token_inv.
  destruct (issued_claims_identity settings c0 user user_shop_data expires_delta)
    as (_ & _ & Hsub).
  eapply jwt_decode_window; [done | apply issued_claims_exp | done].
Qed.

Lemma issued_token_window_witness :
  create_access_token demo_settings (utc_clock 1000) alice None None
    = Ret (JWS "HS256" "s3cret"
             (numeric_dates (to_encode demo_settings (utc_clock 1000) alice None None)))
  ∧ jwt_decode
      (JWS "HS256" "s3cret"
         (numeric_dates (to_encode demo_settings (utc_clock 1000) alice None None)))
      (SECRET_KEY demo_settings) [ALGORITHM demo_settings] (utc_clock 2801)
    = if bool_decide (timegm (datetime_utcnow (utc_clock 2801))
                      ≤ timegm (issued_expiry demo_settings (utc_clock 1000) None))
      then Ret (numeric_dates (to_encode demo_settings (utc_clock 1000) alice None None))
      else Raise JWTError.
Proof.
  split; [vm_compute; reflexivity|].
  apply (issued_token_window demo_settings (utc_clock 1000) (utc_clock 2801) alice
           None None).
  vm_compute; reflexivity.
Defined.

(** ** [get_current_user] *)

(** X7: what [get_current_user] answers to a token [create_access_token]
    returned.  Past the validity window: 401.  Within it, the row stored
    under the user's id decides: no row, 401; an inactive row, 400; an
    active row, that row as it is stored now, with the context the token
    was issued with. *)
Theorem get_current_user_issued (settings : Settings) (c0 c1 : Clock)
    (session : Session) (user : User.t) (user_shop_data : option dict)
    (expires_delta : option Z) (t : token) :
  create_access_token settings c0 user user_shop_data expires_delta = Ret t →
  get_current_user settings c1 t session
  = if bool_decide (timegm (datetime_utcnow c1)
                    ≤ timegm (issued_expiry settings c0 expires_delta))
    then
      match users session !! User.id user with
      | None => Raise (HTTPError credentials_exception)
      | Some row =>
          if UserRow.is_active row
          then Ret (resolved_user (User.id user) row
                      (default VNone (issued_context user_shop_data "user_shop_id"))
                      (default VNone (issued_context user_shop_data "last_invoice_id")))
          else Raise (HTTPError inactive_user_exception)
      end
    else Raise (HTTPError credentials_exception).
Proof.
  intros Hissued.
  pose proof (issued_token_window settings c0 c1 user user_shop_data expires_delta
                t Hissued) as Hdecode.
  case_bool_decide.
  - rewrite (get_current_user_payload _ _ _ _ _ Hdecode).
    destruct (issued_claims_identity settings c0 user user_shop_data expires_delta)
      as (Hid & _ & _).
    rewrite (dict_get_Some _ _ _ Hid). cbn [bound_pk].
    unfold dict_get. by rewrite !issued_claims_context by auto.
  - by apply get_current_user_JWTError.
Qed.

Lemma get_current_user_issued_witness :
  create_access_token demo_settings (utc_clock 1000) alice
    (Some {[ "user_shop_id" := VInt 10; "last_invoice_id" := VInt 101 ]}) None
    = Ret (alice_token false)
  ∧ get_current_user demo_settings (utc_clock 1001) (alice_token false)
      session_without_alice
    = Raise (HTTPError credentials_exception).
Proof.
  split; [vm_compute; reflexivity|].
  rewrite (get_current_user_issued demo_settings (utc_clock 1000) (utc_clock 1001)
             session_without_alice alice
             (Some {[ "user_shop_id" := VInt 10; "last_invoice_id" := VInt 101 ]})
             None (alice_token false)); vm_compute; reflexivity.
Defined.

(** X8: [get_current_user] reads the users table only: two stores with the
    same users get the same answer, whatever invoices they hold.  The shop
    and invoice ids it attaches are the token's, not the store's. *)
Theorem get_current_user_users_only (settings : Settings) (c : Clock)
    (session1 session2 : Session) (t : token) :
  users session1 = users session2 →
  get_current_user settings c t session1 = get_current_user settings c t session2.
Proof.
  intros Husers.
  destruct (jwt_decode t (SECRET_KEY settings) [ALGORITHM settings] c)
    as [payload|e] eqn:Hdecode.
  - rewrite !(get_current_user_payload _ _ _ _ _ Hdecode). by rewrite Husers.
  - by rewrite !(get_current_user_Raise _ _ _ _ _ Hdecode).
Qed.

Lemma get_current_user_users_only_witness :
  users demo_session = users {| users := users demo_session; invoices := [] |}
  ∧ get_current_user demo_settings (utc_clock 1001) (alice_token false) demo_session
    = get_current_user demo_settings (utc_clock 1001) (alice_token false)
        {| users := users demo_session; invoices := [] |}.
Proof.
  split; [reflexivity|].
  apply (get_current_user_users_only demo_settings (utc_clock 1001) demo_session
           {| users := users demo_session; invoices := [] |}).
  reflexivity.
Defined.

(** X9: a payload whose [user_id] is present but null is refused like one
    without the key, with the 401 credentials exception. *)
Theorem get_current_user_null_user_id (settings : Settings) (c : Clock)
    (session : Session) (t : token) (payload : dict) :
  jwt_decode t (SECRET_KEY settings) [ALGORITHM settings] c = Ret payload →
  payload !! "user_id" = Some VNone →
  get_current_user settings c t session = Raise (HTTPError credentials_exception).
Proof.
  intros Hdecode Hid. rewrite (get_current_user_payload _ _ _ _ _ Hdecode).
  by rewrite (dict_get_Some _ _ _ Hid).
Qed.

Lemma get_current_user_null_user_id_witness :
  jwt_decode (JWS "HS256" "s3cret" {[ "user_id" := VNone; "exp" := VInt 2800 ]})
    (SECRET_KEY demo_settings) [ALGORITHM demo_settings] (utc_clock 1001)
    = Ret {[ "user_id" := VNone; "exp" := VInt 2800 ]}
  ∧ ({[ "user_id" := VNone; "exp" := VInt 2800 ]} : dict) !! "user_id" = Some VNone
  ∧ get_current_user demo_settings (utc_clock 1001)
      (JWS "HS256" "s3cret" {[ "user_id" := VNone; "exp" := VInt 2800 ]}) demo_session
    = Raise (HTTPError credentials_exception).
Proof.
  split; [vm_compute; reflexivity|]. split; [reflexivity|].
  apply (get_current_user_null_user_id demo_settings (utc_clock 1001) demo_session
           (JWS "HS256" "s3cret" {[ "user_id" := VNone; "exp" := VInt 2800 ]})
           {[ "user_id" := VNone; "exp" := VInt 2800 ]});
    [vm_compute; reflexivity | reflexivity].
Defined.

(** X10: only the configured algorithm is accepted: a token whose header
    names another algorithm is answered with the 401 credentials exception,
    even when it is signed with the configured key and has not expired. *)
Theorem get_current_user_other_alg (settings : Settings) (c : Clock)
    (session : Session) (alg k : string) (claims : dict) :
  alg ≠ ALGORITHM settings →
  get_current_user settings c (JWS alg k claims) session
  = Raise (HTTPError credentials_exception).
Proof.
  intros Halg. apply get_current_user_JWTError. simpl.
  case_decide as Hok; [|done]. destruct Hok as (_ & Hin & _).
  apply list_elem_of_singleton in Hin. done.
Qed.

Lemma get_current_user_other_alg_witness :
  "none" ≠ ALGORITHM demo_settings
  ∧ get_current_user demo_settings (utc_clock 1001)
      (JWS "none" "s3cret" (alice_claims true)) demo_session
    = Raise (HTTPError credentials_exception).
Proof.
  split; [discriminate|].
  apply (get_current_user_other_alg demo_settings (utc_clock 1001) demo_session).
  discriminate.
Defined.

(** X11: [get_current_user] gives a user, the 401 credentials exception or
    the 400 inactive-user exception, or lets pass unchanged an exception of
    [jwt.decode] that is not a [JWTError]; a [JWTError] never leaves it. *)
Theorem get_current_user_outcomes (settings : Settings) (c : Clock)
    (session : Session) (t : token) :
  (∃ user, get_current_user settings c t session = Ret user)
  ∨ get_current_user settings c t session = Raise (HTTPError credentials_exception)
  ∨ get_current_user settings c t session = Raise (HTTPError inactive_user_exception)
  ∨ (∃ e, e ≠ JWTError
       ∧ jwt_decode t (SECRET_KEY settings) [ALGORITHM settings] c = Raise e
       ∧ get_current_user settings c t session = Raise e).
Proof.
  destruct (jwt_decode t (SECRET_KEY settings) [ALGORITHM settings] c)
    as [payload|e] eqn:Hdecode.
  - rewrite (get_current_user_payload _ _ _ _ _ Hdecode).
    destruct (bound_pk settings _) as [pk|]; auto.
    destruct (users session !! pk) as [row|]; auto.
    destruct (UserRow.is_active row); eauto.
  - rewrite (get_current_user_Raise _ _ _ _ _ Hdecode).
    destruct e;
      first [ by right; left
            | do 3 right; eexists; split; [|split; reflexivity]; done ].
Qed.

(** X12: the 400 inactive-user answer is given only to a token that decodes
    and whose [user_id] the query finds equal to the key of a stored,
    inactive user: a token that is malformed, expired or badly signed never
    learns whether an account is inactive. *)
Theorem get_current_user_inactive_only (settings : Settings) (c : Clock)
    (session : Session) (t : token) :
  get_current_user settings c t session = Raise (HTTPError inactive_user_exception) →
  ∃ payload v pk row,
    jwt_decode t (SECRET_KEY settings) [ALGORITHM settings] c = Ret payload
    ∧ payload !! "user_id" = Some v
    ∧ bound_pk settings v = Some pk
    ∧ users session !! pk = Some row
    ∧ UserRow.is_active row = false.
Proof.
  destruct (jwt_decode t (SECRET_KEY settings) [ALGORITHM settings] c)
    as [payload|e] eqn:Hdecode.
  - rewrite (get_current_user_payload _ _ _ _ _ Hdecode). unfold dict_get.
    destruct (payload !! "user_id") as [v|] eqn:Hid; simpl; [|by intros [=]].
    destruct (bound_pk settings v) as [pk|] eqn:Hpk; [|by intros [=]].
    destruct (users session !! pk) as [row|] eqn:Hrow; [|by intros [=]].
    destruct (UserRow.is_active row) eqn:Hactive; [by intros [=]|].
    intros _. by exists payload, v, pk, row.
  - rewrite (get_current_user_Raise _ _ _ _ _ Hdecode).
    by destruct (jwt_decode_Raise _ _ _ _ _ Hdecode) as [-> | ->]; intros [=].
Qed.

Lemma get_current_user_inactive_only_witness :
  get_current_user demo_settings (utc_clock 1001)
    (JWS "HS256" "s3cret" {[ "user_id" := VStr "2"; "exp" := VInt 2800 ]}) demo_session
    = Raise (HTTPError inactive_user_exception)
  ∧ ∃ payload v pk row,
      jwt_decode (JWS "HS256" "s3cret" {[ "user_id" := VStr "2"; "exp" := VInt 2800 ]})
        (SECRET_KEY demo_settings) [ALGORITHM demo_settings] (utc_clock 1001)
        = Ret payload
      ∧ payload !! "user_id" = Some v
      ∧ bound_pk demo_settings v = Some pk
      ∧ users demo_session !! pk = Some row
      ∧ UserRow.is_active row = false.
Proof.
  split; [vm_compute; reflexivity|].
  apply (get_current_user_inactive_only demo_settings (utc_clock 1001) demo_session
           (JWS "HS256" "s3cret" {[ "user_id" := VStr "2"; "exp" := VInt 2800 ]})).
  vm_compute; reflexivity.
Defined.

(** X13: of a decoded payload only [user_id], [user_shop_id] and
    [last_invoice_id] matter: two tokens that decode to payloads with the
    same values under these three keys get the same answer, whatever their
    other claims say. *)
Theorem get_current_user_three_claims (settings : Settings) (c : Clock)
    (session : Session) (t1 t2 : token) (payload1 payload2 : dict) :
  jwt_decode t1 (SECRET_KEY settings) [ALGORITHM settings] c = Ret payload1 →
  jwt_decode t2 (SECRET_KEY settings) [ALGORITHM settings] c = Ret payload2 →
  payload1 !! "user_id" = payload2 !! "user_id" →
  payload1 !! "user_shop_id" = payload2 !! "user_shop_id" →
  payload1 !! "last_invoice_id" = payload2 !! "last_invoice_id" →
  get_current_user settings c t1 session = get_current_user settings c t2 session.
Proof.
  intros Hdecode1 Hdecode2 Hid Hshop Hinvoice.
  rewrite (get_current_user_payload _ _ _ _ _ Hdecode1).
  rewrite (get_current_user_payload _ _ _ _ _ Hdecode2).
  unfold dict_get. by rewrite Hid, Hshop, Hinvoice.
Qed.

Lemma get_current_user_three_claims_witness :
  jwt_decode (alice_token false) (SECRET_KEY demo_settings) [ALGORITHM demo_settings]
    (utc_clock 1001) = Ret (alice_claims false)
  ∧ jwt_decode
      (JWS "HS256" "s3cret"
         {[ "user_id" := VInt 1; "user_shop_id" := VInt 10;
            "last_invoice_id" := VInt 101; "sub" := VStr "mallory" ]})
      (SECRET_KEY demo_settings) [ALGORITHM demo_settings] (utc_clock 1001)
    = Ret {[ "user_id" := VInt 1; "user_shop_id" := VInt 10;
             "last_invoice_id" := VInt 101; "sub" := VStr "mallory" ]}
  ∧ get_current_user demo_settings (utc_clock 1001) (alice_token false) demo_session
    = get_current_user demo_settings (utc_clock 1001)
        (JWS "HS256" "s3cret"
           {[ "user_id" := VInt 1; "user_shop_id" := VInt 10;
              "last_invoice_id" := VInt 101; "sub" := VStr "mallory" ]})
        demo_session.
Proof.
  split; [vm_compute; reflexivity|]. split; [vm_compute; reflexivity|].
  apply (get_current_user_three_claims demo_settings (utc_clock 1001) demo_session
           (alice_token false) _ (alice_claims false)
           {[ "user_id" := VInt 1; "user_shop_id" := VInt 10;
              "last_invoice_id" := VInt 101; "sub" := VStr "mallory" ]});
    vm_compute; reflexivity.
Defined.

(** ** How the issuer fails *)

Lemma dict_get_VDatetime (d : dict) (k : string) (dt : Z) :
  dict_get d k = VDatetime dt ↔ d !! k = Some (VDatetime dt).
Proof.
  unfold dict_get. destruct (d !! k) as [v|]; simpl; split;
    first [by intros -> | by intros [= ->] | done].
Qed.

Lemma expire_OverflowError (settings : Settings) (c : Clock) (expires_delta : option Z) :
  expire settings c expires_delta = Raise OverflowError
  ↔ ¬ (datetime_min ≤ issued_expiry settings c expires_delta ≤ datetime_max)
    ∨ (optional_timedelta_truthy expires_delta = false
       ∧ ¬ (timedelta_min ≤ timedelta_minutes (ACCESS_TOKEN_EXPIRE_MINUTES settings)
            ≤ timedelta_max)).
Proof.
  unfold expire, issued_expiry, timedelta_of_minutes, datetime_add.
  destruct expires_delta as [d|]; simpl;
    repeat first [case_bool_decide | case_decide]; simpl;
    repeat case_bool_decide; intuition congruence.
Qed.

(** X14: [create_access_token] raises [OverflowError] exactly when the
    configured minutes leave the range of [timedelta] or the expiry leaves
    the range of [datetime]; when the expiry is in range, a [datetime]
    under [user_shop_id] or [last_invoice_id] of the context record makes it
    raise [TypeError] instead of returning a token. *)
Theorem create_access_token_raises (settings : Settings) (c : Clock) (user : User.t)
    (user_shop_data : option dict) (expires_delta : option Z) :
  (create_access_token settings c user user_shop_data expires_delta
     = Raise OverflowError
   ↔ ¬ (datetime_min ≤ issued_expiry settings c expires_delta ≤ datetime_max)
     ∨ (optional_timedelta_truthy expires_delta = false
        ∧ ¬ (timedelta_min ≤ timedelta_minutes (ACCESS_TOKEN_EXPIRE_MINUTES settings)
             ≤ timedelta_max)))
  ∧ (∀ d k dt e,
       user_shop_data = Some d →
       k = "user_shop_id" ∨ k = "last_invoice_id" →
       d !! k = Some (VDatetime dt) →
       expire settings c expires_delta = Ret e →
       create_access_token settings c user user_shop_data expires_delta
       = Raise TypeError).
Proof.
  split.
  - rewrite <- expire_OverflowError. unfold create_access_token, jwt_encode.
    destruct (expire settings c expires_delta) as [e|e]; simpl.
    + case_decide; split; done.
    + split; by intros [= ->].
  - intros d k dt e -> Hk Hdt Hexpire.
    unfold create_access_token, jwt_encode. rewrite Hexpire. simpl.
    case_decide as Hjson; [|done]. exfalso.
    assert (numeric_dates (to_encode settings c user (Some d) expires_delta) !! k
            = Some (VDatetime dt)) as Hclaim.
    { rewrite issued_claims_context by done. unfold issued_context.
      assert (optional_dict_truthy (Some d) = true) as ->.
      { apply dict_truthy_true. intros ->. by rewrite lookup_empty in Hdt. }
      simpl. f_equal. by apply dict_get_VDatetime. }
    by specialize (Hjson k _ Hclaim).
Qed.
